(** * dmitigr/genicam: the Daheng GX wrapper (daheng_gx.hpp)

    A shallow embedding of the header-only wrapper around the vendor's
    GxIAPI / DxImageProc C interface.  The vendor library is closed source:
    every native function is an event of an interaction signature, a wrapper
    function is a finite tree of such events, and a tree is run against an
    arbitrary handler (any behaviour the vendor library may show) while the
    sequence of native calls is recorded. *)

From Stdlib Require Import ZArith Lia List String Ascii Bool.
From Stdlib Require Import DecimalString DecimalZ.
From stdpp Require Import base list.

Local Open Scope Z_scope.

(** ** Machine integers *)

(** [static_cast<std::uint32_t>] and arithmetic on [std::uint32_t]. *)
Definition to_uint32 (z : Z) : Z := z mod 2 ^ 32.

(** [static_cast<std::int32_t>] and the implicit conversion to [int]. *)
Definition to_int32 (z : Z) : Z := (z + 2 ^ 31) mod 2 ^ 32 - 2 ^ 31.

(** [static_cast<std::size_t>] (LP64). *)
Definition to_size_t (z : Z) : Z := z mod 2 ^ 64.

Arguments to_uint32 : simpl never.
Arguments to_int32 : simpl never.
Arguments to_size_t : simpl never.

(** ** Types of the vendor interface *)

(** [GX_STATUS] is [int32_t]. *)
Definition GX_STATUS : Type := Z.

(** [VxInt32], the status type of DxImageProc. *)
Definition VxInt32 : Type := Z.

(** [GX_DEV_HANDLE] is [void*]; the null pointer is [0]. *)
Definition GX_DEV_HANDLE : Type := Z.

(** Any other raw pointer ([void*], callbacks, buffers). *)
Definition pointer : Type := Z.

(** A [double], kept as its 64-bit pattern: the wrapper only moves doubles. *)
Definition double : Type := Z.

(** The enumerators of [GX_FEATURE_ID] the wrapper names. *)
Inductive GX_FEATURE_ID : Type :=
| GX_ENUM_DEVICE_LINK_THROUGHPUT_LIMIT_MODE
| GX_INT_TIMESTAMP_TICK_FREQUENCY
| GX_INT_TIMESTAMP_LATCH_VALUE
| GX_COMMAND_TIMESTAMP_LATCH
| GX_COMMAND_TIMESTAMP_RESET
| GX_COMMAND_TIMESTAMP_LATCH_RESET
| GX_ENUM_PIXEL_FORMAT
| GX_INT_PAYLOAD_SIZE
| GX_ENUM_TRIGGER_MODE
| GX_ENUM_TRIGGER_SOURCE
| GX_ENUM_TRIGGER_SWITCH
| GX_FLOAT_TRIGGER_FILTER_RAISING
| GX_FLOAT_TRIGGER_FILTER_FALLING
| GX_FLOAT_TRIGGER_DELAY
| GX_FLOAT_EXPOSURE_TIME
| GX_FLOAT_EXPOSURE_DELAY
| GX_ENUM_EXPOSURE_MODE
| GX_ENUM_EXPOSURE_AUTO
| GX_ENUM_GAIN_AUTO
| GX_FLOAT_GAIN
| GX_ENUM_GAIN_SELECTOR
| GX_FLOAT_BALANCE_RATIO
| GX_ENUM_BALANCE_RATIO_SELECTOR
| GX_DS_INT_STREAM_TRANSFER_SIZE
| GX_COMMAND_DEVICE_RESET
| GX_COMMAND_TRIGGER_SOFTWARE.

(** [GX_OPEN_PARAM]: [pszContent] is modelled by the C string it points to
    ([None] for the null pointer); [openMode] and [accessMode] are the
    [int32_t] fields of the struct. *)
Record GX_OPEN_PARAM : Type := mkGX_OPEN_PARAM {
  pszContent : option string;
  openMode : Z;
  accessMode : Z
}.

(** [GX_FLOAT_RANGE]: the wrapper reads [dMin] and [dMax]; the fields it
    never reads are kept as one opaque list. *)
Record GX_FLOAT_RANGE : Type := mkGX_FLOAT_RANGE {
  dMin : double;
  dMax : double;
  range_rest : list Z
}.

(** [GX_FRAME_DATA]: the wrapper touches [pImgBuf] only. *)
Record GX_FRAME_DATA : Type := mkGX_FRAME_DATA {
  pImgBuf : pointer;
  frame_rest : list Z
}.

(** The constants of GxIAPI.h and DxImageProc.h the wrapper compares with.
    The two headers belong to the vendor SDK; their values are parameters of
    the development. *)
Class GxHeader : Type := {
  GX_STATUS_SUCCESS : GX_STATUS;
  GX_OPEN_SN : Z;
  GX_OPEN_IP : Z;
  GX_OPEN_MAC : Z;
  GX_OPEN_INDEX : Z;
  GX_OPEN_USERID : Z;
  DX_OK : VxInt32;
  DX_PARAMETER_INVALID : VxInt32;
  DX_PARAMETER_OUT_OF_BOUND : VxInt32;
  DX_NOT_ENOUGH_SYSTEM_MEMORY : VxInt32;
  DX_NOT_FIND_DEVICE : VxInt32;
  DX_STATUS_NOT_SUPPORTED : VxInt32;
  DX_CPU_NOT_SUPPORT_ACCELERATE : VxInt32;
  (** [static_cast] of an [std::int64_t] to one of the [GX_..._ENTRY]
      enumerations, which the header declares *)
  static_cast_entry : Z -> Z
}.

(** ** Native calls

    One constructor per native function the wrapper calls, indexed by what the
    call hands back: the returned status and, for a function with output
    parameters, their contents after the call.  An output parameter also
    appears as an argument, holding the contents of the pointed-to object
    before the call. *)
Inductive Call : Type -> Type :=
| GXInitLib : Call GX_STATUS
| GXCloseLib : Call GX_STATUS
| GXGetLastError (code : GX_STATUS) (buf : option string) (size : Z)
  : Call (GX_STATUS * (GX_STATUS * string * Z))
| GXUpdateDeviceList (num : Z) (timeout : Z) : Call (GX_STATUS * Z)
| GXUpdateAllDeviceList (num : Z) (timeout : Z) : Call (GX_STATUS * Z)
| GXOpenDeviceByIndex (index : Z) (h : GX_DEV_HANDLE)
  : Call (GX_STATUS * GX_DEV_HANDLE)
| GXOpenDevice (p : GX_OPEN_PARAM) (h : GX_DEV_HANDLE)
  : Call (GX_STATUS * GX_DEV_HANDLE)
| GXCloseDevice (h : GX_DEV_HANDLE) : Call GX_STATUS
| GXStreamOn (h : GX_DEV_HANDLE) : Call GX_STATUS
| GXStreamOff (h : GX_DEV_HANDLE) : Call GX_STATUS
| GXRegisterCaptureCallback (h : GX_DEV_HANDLE) (data callback : pointer)
  : Call GX_STATUS
| GXUnregisterCaptureCallback (h : GX_DEV_HANDLE) : Call GX_STATUS
| GXFlushQueue (h : GX_DEV_HANDLE) : Call GX_STATUS
| GXSendCommand (h : GX_DEV_HANDLE) (f : GX_FEATURE_ID) : Call GX_STATUS
| GXGetEnum (h : GX_DEV_HANDLE) (f : GX_FEATURE_ID) (v : Z)
  : Call (GX_STATUS * Z)
| GXSetEnum (h : GX_DEV_HANDLE) (f : GX_FEATURE_ID) (v : Z) : Call GX_STATUS
| GXGetFloat (h : GX_DEV_HANDLE) (f : GX_FEATURE_ID) (v : double)
  : Call (GX_STATUS * double)
| GXSetFloat (h : GX_DEV_HANDLE) (f : GX_FEATURE_ID) (v : double)
  : Call GX_STATUS
| GXGetInt (h : GX_DEV_HANDLE) (f : GX_FEATURE_ID) (v : Z)
  : Call (GX_STATUS * Z)
| GXSetInt (h : GX_DEV_HANDLE) (f : GX_FEATURE_ID) (v : Z) : Call GX_STATUS
| GXGetFloatRange (h : GX_DEV_HANDLE) (f : GX_FEATURE_ID) (r : GX_FLOAT_RANGE)
  : Call (GX_STATUS * GX_FLOAT_RANGE)
| GXIsImplemented (h : GX_DEV_HANDLE) (f : GX_FEATURE_ID) (b : bool)
  : Call (GX_STATUS * bool)
| GXGetImage (h : GX_DEV_HANDLE) (d : GX_FRAME_DATA) (timeout : Z)
  : Call (GX_STATUS * GX_FRAME_DATA)
| DxRaw8toRGB24 (input output : pointer) (width height : Z)
    (conversion_type bayer_layout : Z) (flip : bool) : Call VxInt32
(* the C and C++ runtime *)
| malloc (size : Z) : Call pointer
| free (p : pointer) : Call unit
| new_array (size : Z) : Call (option pointer)
| delete_array (p : pointer) : Call unit.

(** ** Programs *)

(** A finite tree of native calls ending in a value. *)
Inductive Free (A : Type) : Type :=
| Ret (a : A)
| Vis {X : Type} (c : Call X) (k : X -> Free A).

Arguments Ret {A} a.
Arguments Vis {A X} c k.

Fixpoint bindF {A B : Type} (p : Free A) (f : A -> Free B) : Free B :=
  match p with
  | Ret a => f a
  | Vis c k => Vis c (fun x => bindF (k x) f)
  end.

(** The exceptions the wrapper throws. [Exception] is [gx::Exception], a
    [std::system_error] of the wrapper's own category. *)
Inductive exn : Type :=
| Exception (ev : Z) (what : string)
| invalid_argument (what : string)
| logic_error (what : string)
| runtime_error (what : string)
| bad_alloc.

Inductive outcome (A : Type) : Type :=
| Normal (a : A)
| Thrown (e : exn).

Arguments Normal {A} a.
Arguments Thrown {A} e.

(** Code running on an object (or on static data) of type [S]: the state
    survives an exception, as the object does. *)
Definition M (S A : Type) : Type := S -> Free (outcome A * S).

Definition ret {S A : Type} (a : A) : M S A := fun s => Ret (Normal a, s).

Definition throw {S A : Type} (e : exn) : M S A := fun s => Ret (Thrown e, s).

Definition bind {S A B : Type} (m : M S A) (f : A -> M S B) : M S B :=
  fun s => bindF (m s) (fun r =>
    match r with
    | (Normal a, s') => f a s'
    | (Thrown e, s') => Ret (Thrown e, s')
    end).

(** A direct native call, without any error check. *)
Definition native {S X : Type} (c : Call X) : M S X :=
  fun s => Vis c (fun x => Ret (Normal x, s)).

Definition get {S : Type} : M S S := fun s => Ret (Normal s, s).

Definition put {S : Type} (s' : S) : M S unit := fun _ => Ret (Normal tt, s').

Declare Scope cxx_scope.
Delimit Scope cxx_scope with cxx.

Notation "x <- m ;; k" := (bind m (fun x => k))
  (at level 100, m at next level, right associativity) : cxx_scope.
Notation "m ;; k" := (bind m (fun _ => k))
  (at level 100, right associativity) : cxx_scope.

Local Open Scope cxx_scope.

(** ** Running a program against the vendor library *)

(** Any behaviour of the native side: a state [W] and, per call, the answer
    and the next state. *)
Definition handler (W : Type) : Type := forall X : Type, Call X -> W -> X * W.

(** A native call that happened, with its answer. *)
Inductive Event : Type :=
| Ev {X : Type} (c : Call X) (x : X).

Fixpoint run {W A : Type} (h : handler W) (p : Free A) (w : W)
  : list Event * A * W :=
  match p with
  | Ret a => ([], a, w)
  | Vis c k =>
      let (x, w1) := h _ c w in
      let '(t, a, w2) := run h (k x) w1 in
      (Ev c x :: t, a, w2)
  end.

Definition trace_of {W A : Type} (r : list Event * A * W) : list Event :=
  fst (fst r).

Definition result_of {W A : Type} (r : list Event * A * W) : A :=
  snd (fst r).

Definition world_of {W A : Type} (r : list Event * A * W) : W := snd r.

(** ** Observing a run *)

(** The native calls that are neither the error query of [gx::call] nor part
    of the C/C++ runtime. *)
Definition is_operation (e : Event) : bool :=
  match e with
  | Ev c _ =>
      match c with
      | GXGetLastError _ _ _ => false
      | malloc _ | free _ | new_array _ | delete_array _ => false
      | _ => true
      end
  end.

Definition operations (t : list Event) : list Event :=
  List.filter is_operation t.


(** The pointers handed to [std::free], in order. *)
Fixpoint freed (t : list Event) : list pointer :=
  match t with
  | [] => []
  | Ev c _ :: t' =>
      match c with
      | free p => p :: freed t'
      | _ => freed t'
      end
  end.

(** The sizes asked of [std::malloc], in order. *)
Fixpoint malloc_sizes (t : list Event) : list Z :=
  match t with
  | [] => []
  | Ev c _ :: t' =>
      match c with
      | malloc n => n :: malloc_sizes t'
      | _ => malloc_sizes t'
      end
  end.

(** The device handle a native call is made on, for the calls that take
    one. *)
Definition event_handle (e : Event) : option GX_DEV_HANDLE :=
  match e with
  | Ev c _ =>
      match c with
      | GXCloseDevice h | GXStreamOn h | GXStreamOff h
      | GXRegisterCaptureCallback h _ _ | GXUnregisterCaptureCallback h
      | GXFlushQueue h | GXSendCommand h _
      | GXGetEnum h _ _ | GXSetEnum h _ _
      | GXGetFloat h _ _ | GXSetFloat h _ _
      | GXGetInt h _ _ | GXSetInt h _ _
      | GXGetFloatRange h _ _ | GXIsImplemented h _ _
      | GXGetImage h _ _ => Some h
      | _ => None
      end
  end.

Definition is_last_error_query (e : Event) : bool :=
  match e with
  | Ev c _ => match c with GXGetLastError _ _ _ => true | _ => false end
  end.

Definition is_init_lib (e : Event) : bool :=
  match e with
  | Ev c _ => match c with GXInitLib => true | _ => false end
  end.

Definition is_close_lib (e : Event) : bool :=
  match e with
  | Ev c _ => match c with GXCloseLib => true | _ => false end
  end.

(** ** Basics (namespace [gx]) *)

Section Basics.
Context `{GxHeader}.

(** [std::string::resize(n)] on an empty string: [n] value-initialised
    characters. *)
Fixpoint nul_string (n : nat) : string :=
  match n with
  | O => EmptyString
  | S n' => String zero (nul_string n')
  end.

(** The characters a native function left in a caller-supplied buffer: the
    buffer keeps its size, whatever the function wrote. *)
Fixpoint written_into (buf text : string) : string :=
  match buf, text with
  | EmptyString, _ => EmptyString
  | String b buf', EmptyString => String b buf'
  | String _ buf', String c text' => String c (written_into buf' text')
  end.

Definition get_last_error {S : Type} : M S (GX_STATUS * string) :=
  let str := EmptyString in
  let code := 0 in
  (* Asking for required string size. *)
  let str_size := 0 in
  r1 <- native (GXGetLastError code None str_size) ;;
  let '(s, (code, _, str_size)) := r1 in
  if s =? GX_STATUS_SUCCESS then
    let str := nul_string (Z.to_nat str_size) in
    (* Asking for string. *)
    r2 <- native (GXGetLastError code (Some str) str_size) ;;
    let '(s, (code, text, str_size)) := r2 in
    if negb (s =? GX_STATUS_SUCCESS) then
      throw (Exception s "GXGetLastError()")
    else
      ret (code, written_into str text)
  else
    throw (Exception s "GXGetLastError()").

Definition throw_if_last_error {S : Type} : M S unit :=
  r <- get_last_error ;;
  let '(code, str) := r in
  if negb (code =? GX_STATUS_SUCCESS) then throw (Exception code str)
  else ret tt.

(** The template [call]: [f(args...)] is one native call. *)
Definition call {S X : Type} (f : Call X) : M S X :=
  result <- native f ;;
  throw_if_last_error ;;
  ret result.

End Basics.

(** Cleanup that runs while an exception unwinds the stack (the destructor of
    a local object); the exception goes on afterwards. *)
Definition on_unwind {S A : Type} (m : M S A) (cleanup : M S unit) : M S A :=
  fun s => bindF (m s) (fun r =>
    match r with
    | (Normal a, s') => Ret (Normal a, s')
    | (Thrown e, s') => bindF (cleanup s') (fun r' => Ret (Thrown e, snd r'))
    end).


(** ** Class [Open_param] *)

Module Open_param.
Section Open_param.
Context `{GxHeader}.

(** [pszContent] of [handle_] points into [content_]; [None] is the null
    pointer of a value-initialised [GX_OPEN_PARAM]. *)
Record t : Type := mk {
  content_ : string;
  psz : option string;
  open_mode_ : Z;
  access_mode_ : Z
}.

(** The [GX_OPEN_PARAM] the vendor library is given. *)
Definition handle_ (p : t) : GX_OPEN_PARAM :=
  mkGX_OPEN_PARAM (psz p) (open_mode_ p) (access_mode_ p).

(** [Open_param() = default]. *)
Definition default_ctor : t := mk EmptyString None 0 0.

(** The generic constructor.  [om] and [am] are enumerators: storing them in
    the [int32_t] fields keeps their values. *)
Definition ctor (content : string) (om am : Z) : t :=
  mk content (Some content) om am.

Definition copy_ctor (rhs : t) : t :=
  mk (content_ rhs) (Some (content_ rhs)) (open_mode_ rhs) (access_mode_ rhs).

(** [swap]: the pair is [( *this, other)]. *)
Definition swap (p : t * t) : t * t :=
  let (this, other) := p in
  (mk (content_ other) (Some (content_ other))
      (open_mode_ other) (access_mode_ other),
   mk (content_ this) (Some (content_ this))
      (open_mode_ this) (access_mode_ this)).

(** The move constructor: the new object and what is left of [rhs]. *)
Definition move_ctor (rhs : t) : t * t :=
  let this := default_ctor in
  let new_this := default_ctor in
  let (rhs, new_this) := swap (rhs, new_this) in
  let (this, new_this) := swap (this, new_this) in
  (this, rhs).

(** Copy and move assignment from a different object: both copy [rhs]. *)
Definition assign (this rhs : t) : t :=
  let tmp := copy_ctor rhs in
  fst (swap (this, tmp)).

Definition is_empty (s : string) : bool :=
  match s with
  | EmptyString => true
  | String _ _ => false
  end.

(** [std::to_string(int)]: the decimal digits, with a minus sign when
    negative. *)
Definition to_string (i : Z) : string := NilZero.string_of_int (Z.to_int i).

Definition by_sn (sn : string) (am : Z) : outcome t :=
  if is_empty sn then Thrown (invalid_argument "invalid camera serial number")
  else Normal (ctor sn GX_OPEN_SN am).

Definition by_ip (ip : string) (am : Z) : outcome t :=
  if is_empty ip then Thrown (invalid_argument "invalid camera IP address")
  else Normal (ctor ip GX_OPEN_IP am).

Definition by_mac (mac : string) (am : Z) : outcome t :=
  if is_empty mac then Thrown (invalid_argument "invalid camera MAC address")
  else Normal (ctor mac GX_OPEN_MAC am).

Definition by_index (index : Z) (am : Z) : outcome t :=
  if negb (0 <? index) then Thrown (invalid_argument "invalid camera index")
  else Normal (ctor (to_string index) GX_OPEN_INDEX am).

Definition by_userid (userid : string) (am : Z) : outcome t :=
  if is_empty userid then Thrown (invalid_argument "invalid camera user ID")
  else Normal (ctor userid GX_OPEN_USERID am).

Definition content (p : t) : string := content_ p.

Definition open_mode (p : t) : Z := open_mode_ p.

Definition access_mode (p : t) : Z := access_mode_ p.

(** [std::isspace] in the "C" locale: space and the controls [\t] to [\r]. *)
Definition is_space (c : ascii) : bool :=
  let n := Z.of_N (N_of_ascii c) in
  (n =? 32) || ((9 <=? n) && (n <=? 13)).

Definition digit_of (c : ascii) : option Z :=
  let n := Z.of_N (N_of_ascii c) in
  if (48 <=? n) && (n <=? 57) then Some (n - 48) else None.

Fixpoint skip_spaces (s : string) : string :=
  match s with
  | String c s' => if is_space c then skip_spaces s' else s
  | EmptyString => s
  end.

(** The longest run of decimal digits at the front of [s], read from the
    left; [None] when there is no digit at all. *)
Fixpoint digits (s : string) (acc : Z) (seen : bool) : option Z :=
  match s with
  | EmptyString => if seen then Some acc else None
  | String c s' =>
      match digit_of c with
      | Some d => digits s' (acc * 10 + d) true
      | None => if seen then Some acc else None
      end
  end.

(** [std::stoul(str)] (base 10, [unsigned long] of 64 bits): white space,
    an optional sign, digits; what follows the digits is ignored; a negative
    number is negated in [unsigned long].  [None] when it throws
    ([std::invalid_argument] without a digit, [std::out_of_range] above
    [ULONG_MAX]). *)
Definition stoul (s : string) : option Z :=
  let s := skip_spaces s in
  let '(negative, s) :=
    match s with
    | String c s' =>
        if Ascii.eqb c "-" then (true, s')
        else if Ascii.eqb c "+" then (false, s')
        else (false, s)
    | EmptyString => (false, s)
    end in
  match digits s 0 false with
  | None => None
  | Some v =>
      if 2 ^ 64 - 1 <? v then None
      else Some (if negative then (- v) mod 2 ^ 64 else v)
  end.

(** [index()]: declared [noexcept], so an exception of [std::stoul] ends the
    program ([None]). *)
Definition index (p : t) : option Z :=
  if open_mode p =? GX_OPEN_INDEX then option_map to_uint32 (stoul (content_ p))
  else Some 0.

End Open_param.
End Open_param.

(** ** Free functions *)

Section FreeFunctions.
Context `{GxHeader}.

(** [timeout.count()] is the number of milliseconds. *)
Definition update_device_list {S : Type} (timeout : Z) : M S Z :=
  let camera_count := 0 in
  r <- call (GXUpdateDeviceList camera_count (to_uint32 timeout)) ;;
  ret (snd r).

Definition update_all_device_list {S : Type} (timeout : Z) : M S Z :=
  let camera_count := 0 in
  r <- call (GXUpdateAllDeviceList camera_count (to_uint32 timeout)) ;;
  ret (snd r).

End FreeFunctions.

(** ** Class [Library] *)

Module Library.
Section Library.
Context `{GxHeader}.

(** What a member function sees: the static counter [refs_] (an
    [std::atomic_int], used from one thread here) and the [is_refer_] flag of
    [*this]. *)
Record t : Type := mk {
  refs_ : Z;
  is_refer_ : bool
}.

Definition is_invariant_ok (s : t) : bool :=
  negb (is_refer_ s) || negb (refs_ s =? 0).

Definition is_refer (s : t) : bool := is_refer_ s.

Definition is_open (s : t) : bool := 0 <? refs_ s.

Definition reference_count (s : t) : Z := refs_ s.

Definition open : M t unit :=
  s <- get ;;
  if is_refer_ s then ret tt
  else
    (if refs_ s =? 0 then (call GXInitLib ;; ret tt) else ret tt) ;;
    s <- get ;;
    put (mk (refs_ s) true) ;;
    s <- get ;;
    put (mk (to_int32 (refs_ s + 1)) (is_refer_ s)) ;;
    s <- get ;;
    if negb (is_invariant_ok s) then throw (logic_error "bug") else ret tt.

Definition close : M t unit :=
  s <- get ;;
  if negb (is_refer_ s) then ret tt
  else
    (if refs_ s =? 1 then (call GXCloseLib ;; ret tt) else ret tt) ;;
    s <- get ;;
    put (mk (refs_ s) false) ;;
    s <- get ;;
    put (mk (to_int32 (refs_ s - 1)) (is_refer_ s)) ;;
    s <- get ;;
    if negb (is_invariant_ok s) then throw (logic_error "bug") else ret tt.

(** [~Library]. *)
Definition dtor : M t unit :=
  s <- get ;;
  if negb (is_refer_ s) then ret tt
  else
    (if refs_ s =? 1 then (native GXCloseLib ;; ret tt) else ret tt) ;;
    s <- get ;;
    put (mk (to_int32 (refs_ s - 1)) (is_refer_ s)).

(** [Library(auto_open)], run on the new object ([is_refer_{}]). *)
Definition ctor (auto_open : bool) : M t unit :=
  if auto_open then open else ret tt.

(** *** Several instances

    The static counter and every [Library] object created so far: [Some b] is
    a live object whose [is_refer_] is [b], [None] a destroyed one. *)
Record heap : Type := mkheap {
  static_refs : Z;
  objects : list (option bool)
}.

Definition heap0 : heap := mkheap 0 [].

(** What a client does with the class. *)
Inductive op : Type :=
| Construct (auto_open : bool)
| Open (i : nat)
| Close (i : nat)
| Destroy (i : nat).

(** A member function called on the live object [i]. *)
Definition on_object {A : Type} (i : nat) (m : M t A)
    (after : bool -> option bool) : M heap (option A) :=
  fun hp =>
    match objects hp !! i with
    | Some (Some b) =>
        bindF (m (mk (static_refs hp) b)) (fun r =>
          let (o, s) := r in
          let hp' := mkheap (refs_ s)
                       (<[i := after (is_refer_ s)]> (objects hp)) in
          match o with
          | Normal a => Ret (Normal (Some a), hp')
          | Thrown e => Ret (Thrown e, hp')
          end)
    | _ => Ret (Normal None, hp)
    end.

(** One client action.  A constructor that throws leaves no object behind;
    an action on an object that is not alive does not happen ([None]). *)
Definition step (o : op) : M heap (option unit) :=
  match o with
  | Construct auto_open => fun hp =>
      bindF (ctor auto_open (mk (static_refs hp) false)) (fun r =>
        let (o, s) := r in
        match o with
        | Normal a =>
            Ret (Normal (Some a),
                 mkheap (refs_ s) (objects hp ++ [Some (is_refer_ s)]))
        | Thrown e => Ret (Thrown e, mkheap (refs_ s) (objects hp))
        end)
  | Open i => on_object i open Some
  | Close i => on_object i close Some
  | Destroy i => on_object i dtor (fun _ => None)
  end.

(** The states a client can bring about, the vendor library behaving as
    [h]: from no object at all and any state of the vendor library, by any
    sequence of actions, whether they throw or not. *)
Inductive reachable {W : Type} (h : handler W) : W -> heap -> Prop :=
| reachable_init (w : W) : reachable h w heap0
| reachable_step (w w' : W) (hp hp' : heap) (o : op) (t : list Event)
    (out : outcome (option unit)) :
    reachable h w hp ->
    run h (step o hp) w = (t, (out, hp'), w') ->
    reachable h w' hp'.

(** How much an object adds to the number of referring instances. *)
Definition weight (o : option bool) : Z :=
  match o with
  | Some true => 1
  | _ => 0
  end.

(** The number of live objects whose [is_refer_] is set. *)
Fixpoint count_refer (l : list (option bool)) : Z :=
  match l with
  | [] => 0
  | o :: l' => weight o + count_refer l'
  end.

(** What a run of a member function on [*this] does to the counter, and
    whether it takes the first or drops the last reference; [final] tells
    what is left of the object. *)
Definition counts {W : Type} (h : handler W) (m : M t unit) (r : Z)
    (b : bool) (w : W) (final : bool -> option bool) : Prop :=
  let res := run h (m (mk r b)) w in
  let s' := snd (result_of res) in
  (forall c, r = to_int32 c ->
     refs_ s'
     = to_int32 (c - weight (Some b) + weight (final (is_refer_ s'))))
  /\ ((r = 0 /\ refs_ s' = 1)
      <-> (existsb is_init_lib (trace_of res) = true
           /\ exists a, fst (result_of res) = Normal a))
  /\ ((r = 1 /\ refs_ s' = 0)
      <-> (existsb is_close_lib (trace_of res) = true
           /\ exists a, fst (result_of res) = Normal a)).

End Library.
End Library.

(** ** Struct [Frame_data] *)

Module Frame_data.

(** [GX_FRAME_DATA data{}]. *)
Definition default_ctor : GX_FRAME_DATA := mkGX_FRAME_DATA 0 [].

(** [~Frame_data]. *)
Definition dtor {S : Type} (data : GX_FRAME_DATA) : M S unit :=
  native (free (pImgBuf data)).

(** The move constructor: the new object and what is left of [rhs]. *)
Definition move_ctor (rhs : GX_FRAME_DATA) : GX_FRAME_DATA * GX_FRAME_DATA :=
  (rhs, mkGX_FRAME_DATA 0 (frame_rest rhs)).

(** Move assignment from a different object: [( *this, rhs)] afterwards.
    What [*this] held before is overwritten. *)
Definition move_assign (this rhs : GX_FRAME_DATA)
  : GX_FRAME_DATA * GX_FRAME_DATA :=
  (rhs, mkGX_FRAME_DATA 0 (frame_rest rhs)).

End Frame_data.

(** ** Class [Device] *)

Module Device.
Section Device.
Context `{GxHeader}.

Record t : Type := mk {
  handle_ : GX_DEV_HANDLE
}.

(** [explicit Device(GX_DEV_HANDLE handle = {})]. *)
Definition ctor (handle : GX_DEV_HANDLE) : t := mk handle.

(** [explicit Device(std::uint32_t index)], run on the new object. *)
Definition ctor_by_index (index : Z) : M t unit :=
  d <- get ;;
  r <- call (GXOpenDeviceByIndex index (handle_ d)) ;;
  put (mk (snd r)).

(** [explicit Device(GX_OPEN_PARAM* open_param)], run on the new object. *)
Definition ctor_by_param (open_param : GX_OPEN_PARAM) : M t unit :=
  d <- get ;;
  r <- call (GXOpenDevice open_param (handle_ d)) ;;
  put (mk (snd r)).

(** [explicit Device(const Open_param&)]. *)
Definition ctor_by_open_param (open_param : Open_param.t) : M t unit :=
  ctor_by_param (Open_param.handle_ open_param).

(** The move constructor: the new object and what is left of [rhs]. *)
Definition move_ctor (rhs : t) : t * t := (mk (handle_ rhs), mk 0).

Definition swap (p : t * t) : t * t := (snd p, fst p).

Definition handle (d : t) : GX_DEV_HANDLE := handle_ d.

(** [explicit operator bool]. *)
Definition to_bool (d : t) : bool := negb (handle_ d =? 0).

Definition release : M t GX_DEV_HANDLE :=
  d <- get ;;
  let result := handle_ d in
  put (mk 0) ;;
  ret result.

Definition close : M t unit :=
  d <- get ;;
  call (GXStreamOff (handle_ d)) ;;
  call (GXUnregisterCaptureCallback (handle_ d)) ;;
  call (GXCloseDevice (handle_ d)) ;;
  put (mk 0).

Definition reset : M t unit :=
  d <- get ;;
  call (GXSendCommand (handle_ d) GX_COMMAND_DEVICE_RESET) ;;
  call (GXCloseDevice (handle_ d)) ;;
  put (mk 0).

Definition close_nothrow : M t bool :=
  d <- get ;;
  if negb (handle_ d =? 0) then
    s <- native (GXStreamOff (handle_ d)) ;;
    s1 <- native (GXUnregisterCaptureCallback (handle_ d)) ;;
    let s := Z.lor s s1 in
    s2 <- native (GXCloseDevice (handle_ d)) ;;
    let s := Z.lor s s2 in
    put (mk 0) ;;
    ret (s =? GX_STATUS_SUCCESS)
  else
    ret true.

(** [~Device]. *)
Definition dtor : M t unit :=
  close_nothrow ;; ret tt.

(** Move assignment from a different object: the state is [( *this, rhs)];
    the temporary that received the old handle is destroyed at the end. *)
Definition move_assign : M (t * t) unit :=
  fun p =>
    let (this, rhs) := p in
    let (tmp, rhs) := move_ctor rhs in
    let (this, tmp) := swap (this, tmp) in
    bindF (dtor tmp) (fun _ => Ret (Normal tt, (this, rhs))).

(** *** The private accessors *)

Definition get_enum (feature : GX_FEATURE_ID) : M t Z :=
  d <- get ;;
  let result := 0 in
  r <- call (GXGetEnum (handle_ d) feature result) ;;
  ret (snd r).

Definition set_enum (feature : GX_FEATURE_ID) (value : Z) : M t unit :=
  d <- get ;;
  call (GXSetEnum (handle_ d) feature value) ;;
  ret tt.

Definition get_float (feature : GX_FEATURE_ID) : M t double :=
  d <- get ;;
  let result := 0 in
  r <- call (GXGetFloat (handle_ d) feature result) ;;
  ret (snd r).

Definition set_float (feature : GX_FEATURE_ID) (value : double) : M t unit :=
  d <- get ;;
  call (GXSetFloat (handle_ d) feature value) ;;
  ret tt.

Definition get_int (feature : GX_FEATURE_ID) : M t Z :=
  d <- get ;;
  let result := 0 in
  r <- call (GXGetInt (handle_ d) feature result) ;;
  ret (snd r).

Definition set_int (feature : GX_FEATURE_ID) (value : Z) : M t unit :=
  d <- get ;;
  call (GXSetInt (handle_ d) feature value) ;;
  ret tt.

Definition get_float_range (feature : GX_FEATURE_ID)
  : M t (double * double) :=
  d <- get ;;
  let result := mkGX_FLOAT_RANGE 0 0 [] in
  r <- call (GXGetFloatRange (handle_ d) feature result) ;;
  ret (dMin (snd r), dMax (snd r)).

Definition is_implemented (feature : GX_FEATURE_ID) : M t bool :=
  d <- get ;;
  let result := false in
  r <- call (GXIsImplemented (handle_ d) feature result) ;;
  ret (snd r).

(** [static_cast<E>(get_enum(feature))] for an entry enumeration [E]. *)
Definition get_entry (feature : GX_FEATURE_ID) : M t Z :=
  v <- get_enum feature ;;
  ret (static_cast_entry v).

(** *** Device information *)

Definition is_device_link_throughput_limit_mode_implemented : M t bool :=
  is_implemented GX_ENUM_DEVICE_LINK_THROUGHPUT_LIMIT_MODE.

Definition set_device_link_throughput_limit_mode (value : Z) : M t unit :=
  set_enum GX_ENUM_DEVICE_LINK_THROUGHPUT_LIMIT_MODE value.

Definition device_link_throughput_limit_mode : M t Z :=
  get_entry GX_ENUM_DEVICE_LINK_THROUGHPUT_LIMIT_MODE.

Definition is_timestamp_tick_frequency_implemented : M t bool :=
  is_implemented GX_INT_TIMESTAMP_TICK_FREQUENCY.

(** Declared to return [int]. *)
Definition timestamp_tick_frequency : M t Z :=
  v <- get_int GX_INT_TIMESTAMP_TICK_FREQUENCY ;;
  ret (to_int32 v).

Definition is_timestamp_latch_value_implemented : M t bool :=
  is_implemented GX_INT_TIMESTAMP_LATCH_VALUE.

(** Declared to return [int]. *)
Definition timestamp_latch_value : M t Z :=
  v <- get_int GX_INT_TIMESTAMP_LATCH_VALUE ;;
  ret (to_int32 v).

Definition is_latch_timestamp_implemented : M t bool :=
  is_implemented GX_COMMAND_TIMESTAMP_LATCH.

Definition latch_timestamp : M t unit :=
  d <- get ;;
  call (GXSendCommand (handle_ d) GX_COMMAND_TIMESTAMP_LATCH) ;;
  ret tt.

Definition is_reset_timestamp_implemented : M t bool :=
  is_implemented GX_COMMAND_TIMESTAMP_RESET.

Definition reset_timestamp : M t unit :=
  d <- get ;;
  call (GXSendCommand (handle_ d) GX_COMMAND_TIMESTAMP_RESET) ;;
  ret tt.

Definition is_latch_reset_timestamp_implemented : M t bool :=
  is_implemented GX_COMMAND_TIMESTAMP_LATCH_RESET.

Definition latch_reset_timestamp : M t unit :=
  d <- get ;;
  call (GXSendCommand (handle_ d) GX_COMMAND_TIMESTAMP_LATCH_RESET) ;;
  ret tt.

(** *** Image format *)

Definition is_pixel_format_implemented : M t bool :=
  is_implemented GX_ENUM_PIXEL_FORMAT.

Definition set_pixel_format (value : Z) : M t unit :=
  set_enum GX_ENUM_PIXEL_FORMAT value.

Definition pixel_format : M t Z := get_entry GX_ENUM_PIXEL_FORMAT.

(** *** Transport layer *)

Definition payload_size : M t Z := get_int GX_INT_PAYLOAD_SIZE.

(** *** Acquisition trigger *)

Definition is_trigger_mode_implemented : M t bool :=
  is_implemented GX_ENUM_TRIGGER_MODE.

Definition set_trigger_mode (value : Z) : M t unit :=
  set_enum GX_ENUM_TRIGGER_MODE value.

Definition trigger_mode : M t Z := get_entry GX_ENUM_TRIGGER_MODE.

Definition is_trigger_source_implemented : M t bool :=
  is_implemented GX_ENUM_TRIGGER_SOURCE.

Definition set_trigger_source (value : Z) : M t unit :=
  set_enum GX_ENUM_TRIGGER_SOURCE value.

Definition trigger_source : M t Z := get_entry GX_ENUM_TRIGGER_SOURCE.

Definition is_external_trigger_switch_implemented : M t bool :=
  is_implemented GX_ENUM_TRIGGER_SWITCH.

Definition set_external_trigger_switch (value : Z) : M t unit :=
  set_enum GX_ENUM_TRIGGER_SWITCH value.

Definition external_trigger_switch : M t Z :=
  get_entry GX_ENUM_TRIGGER_SWITCH.

Definition is_trigger_filter_raising_implemented : M t bool :=
  is_implemented GX_FLOAT_TRIGGER_FILTER_RAISING.

Definition set_trigger_filter_raising (value : double) : M t unit :=
  set_float GX_FLOAT_TRIGGER_FILTER_RAISING value.

Definition trigger_filter_raising : M t double :=
  get_float GX_FLOAT_TRIGGER_FILTER_RAISING.

Definition trigger_filter_raising_range : M t (double * double) :=
  get_float_range GX_FLOAT_TRIGGER_FILTER_RAISING.

Definition is_trigger_filter_falling_implemented : M t bool :=
  is_implemented GX_FLOAT_TRIGGER_FILTER_FALLING.

Definition set_trigger_filter_falling (value : double) : M t unit :=
  set_float GX_FLOAT_TRIGGER_FILTER_FALLING value.

Definition trigger_filter_falling : M t double :=
  get_float GX_FLOAT_TRIGGER_FILTER_FALLING.

Definition trigger_filter_falling_range : M t (double * double) :=
  get_float_range GX_FLOAT_TRIGGER_FILTER_FALLING.

Definition is_trigger_delay_implemented : M t bool :=
  is_implemented GX_FLOAT_TRIGGER_DELAY.

Definition set_trigger_delay (value : double) : M t unit :=
  set_float GX_FLOAT_TRIGGER_DELAY value.

Definition trigger_delay : M t double := get_float GX_FLOAT_TRIGGER_DELAY.

Definition trigger_delay_range : M t (double * double) :=
  get_float_range GX_FLOAT_TRIGGER_DELAY.

Definition is_exposure_time_implemented : M t bool :=
  is_implemented GX_FLOAT_EXPOSURE_TIME.

Definition set_exposure_time (value : double) : M t unit :=
  set_float GX_FLOAT_EXPOSURE_TIME value.

Definition exposure_time : M t double := get_float GX_FLOAT_EXPOSURE_TIME.

Definition exposure_time_range : M t (double * double) :=
  get_float_range GX_FLOAT_EXPOSURE_TIME.

Definition is_exposure_delay_implemented : M t bool :=
  is_implemented GX_FLOAT_EXPOSURE_DELAY.

Definition set_exposure_delay (value : double) : M t unit :=
  set_float GX_FLOAT_EXPOSURE_DELAY value.

Definition exposure_delay : M t double := get_float GX_FLOAT_EXPOSURE_DELAY.

Definition exposure_delay_range : M t (double * double) :=
  get_float_range GX_FLOAT_EXPOSURE_DELAY.

Definition is_exposure_mode_implemented : M t bool :=
  is_implemented GX_ENUM_EXPOSURE_MODE.

Definition set_exposure_mode (value : Z) : M t unit :=
  set_enum GX_ENUM_EXPOSURE_MODE value.

Definition exposure_mode : M t Z := get_entry GX_ENUM_EXPOSURE_MODE.

Definition is_exposure_auto_implemented : M t bool :=
  is_implemented GX_ENUM_EXPOSURE_AUTO.

Definition set_exposure_auto (value : Z) : M t unit :=
  set_enum GX_ENUM_EXPOSURE_AUTO value.

Definition exposure_auto : M t Z := get_entry GX_ENUM_EXPOSURE_AUTO.

(** *** Analog controls *)

Definition is_gain_auto_implemented : M t bool :=
  is_implemented GX_ENUM_GAIN_AUTO.

Definition set_gain_auto (value : Z) : M t unit :=
  set_enum GX_ENUM_GAIN_AUTO value.

Definition gain_auto : M t Z := get_entry GX_ENUM_GAIN_AUTO.

Definition is_gain_implemented : M t bool := is_implemented GX_FLOAT_GAIN.

Definition set_gain (channel : Z) (value : double) : M t unit :=
  set_enum GX_ENUM_GAIN_SELECTOR channel ;;
  set_float GX_FLOAT_GAIN value.

Definition gain (channel : Z) : M t double :=
  set_enum GX_ENUM_GAIN_SELECTOR channel ;;
  get_float GX_FLOAT_GAIN.

Definition gain_range (channel : Z) : M t (double * double) :=
  set_enum GX_ENUM_GAIN_SELECTOR channel ;;
  get_float_range GX_FLOAT_GAIN.

Definition is_balance_ratio_implemented : M t bool :=
  is_implemented GX_FLOAT_BALANCE_RATIO.

Definition set_balance_ratio (channel : Z) (value : double) : M t unit :=
  set_enum GX_ENUM_BALANCE_RATIO_SELECTOR channel ;;
  set_float GX_FLOAT_BALANCE_RATIO value.

Definition balance_ratio (channel : Z) : M t double :=
  set_enum GX_ENUM_BALANCE_RATIO_SELECTOR channel ;;
  get_float GX_FLOAT_BALANCE_RATIO.

Definition balance_ratio_range (channel : Z) : M t (double * double) :=
  set_enum GX_ENUM_BALANCE_RATIO_SELECTOR channel ;;
  get_float_range GX_FLOAT_BALANCE_RATIO.

(** *** Flow layer *)

Definition is_stream_transfer_size_implemented : M t bool :=
  is_implemented GX_DS_INT_STREAM_TRANSFER_SIZE.

Definition set_stream_transfer_size (value : Z) : M t unit :=
  set_int GX_DS_INT_STREAM_TRANSFER_SIZE value.

Definition stream_transfer_size : M t Z :=
  get_int GX_DS_INT_STREAM_TRANSFER_SIZE.

(** *** Control *)

Definition register_capture_callback (callback data : pointer) : M t unit :=
  d <- get ;;
  call (GXRegisterCaptureCallback (handle_ d) data callback) ;;
  ret tt.

Definition unregister_capture_callback : M t unit :=
  d <- get ;;
  call (GXUnregisterCaptureCallback (handle_ d)) ;;
  ret tt.

Definition set_capture_callback (callback data : pointer) : M t unit :=
  d <- get ;;
  native (GXUnregisterCaptureCallback (handle_ d)) ;;
  register_capture_callback callback data.

Definition start_acquisition : M t unit :=
  d <- get ;;
  call (GXStreamOn (handle_ d)) ;;
  ret tt.

Definition stop_acquisition : M t unit :=
  d <- get ;;
  call (GXStreamOff (handle_ d)) ;;
  ret tt.

(** [capture]: the local [result] owns the buffer; its destructor frees it
    when an exception leaves the function.  The body of [call] is written out
    for [GXGetImage], because that destructor sees what the native function
    stored in [result.data] before the error check.  The returned object is
    the local one (no move is made). *)
Definition capture (timeout : Z) : M t GX_FRAME_DATA :=
  let result := Frame_data.default_ctor in
  size <- on_unwind payload_size (Frame_data.dtor result) ;;
  p <- native (malloc (to_size_t size)) ;;
  let result := mkGX_FRAME_DATA p (frame_rest result) in
  d <- get ;;
  r <- native (GXGetImage (handle_ d) result (to_int32 timeout)) ;;
  let result := snd r in
  on_unwind throw_if_last_error (Frame_data.dtor result) ;;
  ret result.

Definition trigger_capture : M t unit :=
  d <- get ;;
  call (GXSendCommand (handle_ d) GX_COMMAND_TRIGGER_SOFTWARE) ;;
  ret tt.

Definition flush_queue : M t unit :=
  d <- get ;;
  call (GXFlushQueue (handle_ d)) ;;
  ret tt.

(** *** The public member functions, as one type

    Every public member function of [Device] that runs on an existing or
    new object, with its arguments; [invoke] runs it and drops the result. *)
Inductive method : Type :=
| m_ctor (handle : GX_DEV_HANDLE)
| m_move_ctor (rhs : t)
| m_swap (other : t)
| m_handle
| m_to_bool
| m_ctor_by_index (index : Z)
| m_ctor_by_param (open_param : GX_OPEN_PARAM)
| m_ctor_by_open_param (open_param : Open_param.t)
| m_release
| m_close
| m_reset
| m_close_nothrow
| m_dtor
| m_is_device_link_throughput_limit_mode_implemented
| m_set_device_link_throughput_limit_mode (value : Z)
| m_device_link_throughput_limit_mode
| m_is_timestamp_tick_frequency_implemented
| m_timestamp_tick_frequency
| m_is_timestamp_latch_value_implemented
| m_timestamp_latch_value
| m_is_latch_timestamp_implemented
| m_latch_timestamp
| m_is_reset_timestamp_implemented
| m_reset_timestamp
| m_is_latch_reset_timestamp_implemented
| m_latch_reset_timestamp
| m_is_pixel_format_implemented
| m_set_pixel_format (value : Z)
| m_pixel_format
| m_payload_size
| m_is_trigger_mode_implemented
| m_set_trigger_mode (value : Z)
| m_trigger_mode
| m_is_trigger_source_implemented
| m_set_trigger_source (value : Z)
| m_trigger_source
| m_is_external_trigger_switch_implemented
| m_set_external_trigger_switch (value : Z)
| m_external_trigger_switch
| m_is_trigger_filter_raising_implemented
| m_set_trigger_filter_raising (value : double)
| m_trigger_filter_raising
| m_trigger_filter_raising_range
| m_is_trigger_filter_falling_implemented
| m_set_trigger_filter_falling (value : double)
| m_trigger_filter_falling
| m_trigger_filter_falling_range
| m_is_trigger_delay_implemented
| m_set_trigger_delay (value : double)
| m_trigger_delay
| m_trigger_delay_range
| m_is_exposure_time_implemented
| m_set_exposure_time (value : double)
| m_exposure_time
| m_exposure_time_range
| m_is_exposure_delay_implemented
| m_set_exposure_delay (value : double)
| m_exposure_delay
| m_exposure_delay_range
| m_is_exposure_mode_implemented
| m_set_exposure_mode (value : Z)
| m_exposure_mode
| m_is_exposure_auto_implemented
| m_set_exposure_auto (value : Z)
| m_exposure_auto
| m_is_gain_auto_implemented
| m_set_gain_auto (value : Z)
| m_gain_auto
| m_is_gain_implemented
| m_set_gain (channel : Z) (value : double)
| m_gain (channel : Z)
| m_gain_range (channel : Z)
| m_is_balance_ratio_implemented
| m_set_balance_ratio (channel : Z) (value : double)
| m_balance_ratio (channel : Z)
| m_balance_ratio_range (channel : Z)
| m_is_stream_transfer_size_implemented
| m_set_stream_transfer_size (value : Z)
| m_stream_transfer_size
| m_register_capture_callback (callback data : pointer)
| m_unregister_capture_callback
| m_set_capture_callback (callback data : pointer)
| m_start_acquisition
| m_stop_acquisition
| m_capture (timeout : Z)
| m_trigger_capture
| m_flush_queue.

Definition void {S A : Type} (m : M S A) : M S unit :=
  _ <- m ;; ret tt.

Definition invoke (m : method) : M t unit :=
  match m with
  | m_ctor handle => put (ctor handle)
  | m_move_ctor rhs => put (fst (move_ctor rhs))
  | m_swap other => d <- get ;; put (fst (swap (d, other)))
  | m_handle => void (d <- get ;; ret (handle d))
  | m_to_bool => void (d <- get ;; ret (to_bool d))
  | m_ctor_by_index index => void (ctor_by_index index)
  | m_ctor_by_param open_param => void (ctor_by_param open_param)
  | m_ctor_by_open_param open_param => void (ctor_by_open_param open_param)
  | m_release => void (release)
  | m_close => void (close)
  | m_reset => void (reset)
  | m_close_nothrow => void (close_nothrow)
  | m_dtor => void (dtor)
  | m_is_device_link_throughput_limit_mode_implemented => void (is_device_link_throughput_limit_mode_implemented)
  | m_set_device_link_throughput_limit_mode value => void (set_device_link_throughput_limit_mode value)
  | m_device_link_throughput_limit_mode => void (device_link_throughput_limit_mode)
  | m_is_timestamp_tick_frequency_implemented => void (is_timestamp_tick_frequency_implemented)
  | m_timestamp_tick_frequency => void (timestamp_tick_frequency)
  | m_is_timestamp_latch_value_implemented => void (is_timestamp_latch_value_implemented)
  | m_timestamp_latch_value => void (timestamp_latch_value)
  | m_is_latch_timestamp_implemented => void (is_latch_timestamp_implemented)
  | m_latch_timestamp => void (latch_timestamp)
  | m_is_reset_timestamp_implemented => void (is_reset_timestamp_implemented)
  | m_reset_timestamp => void (reset_timestamp)
  | m_is_latch_reset_timestamp_implemented => void (is_latch_reset_timestamp_implemented)
  | m_latch_reset_timestamp => void (latch_reset_timestamp)
  | m_is_pixel_format_implemented => void (is_pixel_format_implemented)
  | m_set_pixel_format value => void (set_pixel_format value)
  | m_pixel_format => void (pixel_format)
  | m_payload_size => void (payload_size)
  | m_is_trigger_mode_implemented => void (is_trigger_mode_implemented)
  | m_set_trigger_mode value => void (set_trigger_mode value)
  | m_trigger_mode => void (trigger_mode)
  | m_is_trigger_source_implemented => void (is_trigger_source_implemented)
  | m_set_trigger_source value => void (set_trigger_source value)
  | m_trigger_source => void (trigger_source)
  | m_is_external_trigger_switch_implemented => void (is_external_trigger_switch_implemented)
  | m_set_external_trigger_switch value => void (set_external_trigger_switch value)
  | m_external_trigger_switch => void (external_trigger_switch)
  | m_is_trigger_filter_raising_implemented => void (is_trigger_filter_raising_implemented)
  | m_set_trigger_filter_raising value => void (set_trigger_filter_raising value)
  | m_trigger_filter_raising => void (trigger_filter_raising)
  | m_trigger_filter_raising_range => void (trigger_filter_raising_range)
  | m_is_trigger_filter_falling_implemented => void (is_trigger_filter_falling_implemented)
  | m_set_trigger_filter_falling value => void (set_trigger_filter_falling value)
  | m_trigger_filter_falling => void (trigger_filter_falling)
  | m_trigger_filter_falling_range => void (trigger_filter_falling_range)
  | m_is_trigger_delay_implemented => void (is_trigger_delay_implemented)
  | m_set_trigger_delay value => void (set_trigger_delay value)
  | m_trigger_delay => void (trigger_delay)
  | m_trigger_delay_range => void (trigger_delay_range)
  | m_is_exposure_time_implemented => void (is_exposure_time_implemented)
  | m_set_exposure_time value => void (set_exposure_time value)
  | m_exposure_time => void (exposure_time)
  | m_exposure_time_range => void (exposure_time_range)
  | m_is_exposure_delay_implemented => void (is_exposure_delay_implemented)
  | m_set_exposure_delay value => void (set_exposure_delay value)
  | m_exposure_delay => void (exposure_delay)
  | m_exposure_delay_range => void (exposure_delay_range)
  | m_is_exposure_mode_implemented => void (is_exposure_mode_implemented)
  | m_set_exposure_mode value => void (set_exposure_mode value)
  | m_exposure_mode => void (exposure_mode)
  | m_is_exposure_auto_implemented => void (is_exposure_auto_implemented)
  | m_set_exposure_auto value => void (set_exposure_auto value)
  | m_exposure_auto => void (exposure_auto)
  | m_is_gain_auto_implemented => void (is_gain_auto_implemented)
  | m_set_gain_auto value => void (set_gain_auto value)
  | m_gain_auto => void (gain_auto)
  | m_is_gain_implemented => void (is_gain_implemented)
  | m_set_gain channel value => void (set_gain channel value)
  | m_gain channel => void (gain channel)
  | m_gain_range channel => void (gain_range channel)
  | m_is_balance_ratio_implemented => void (is_balance_ratio_implemented)
  | m_set_balance_ratio channel value => void (set_balance_ratio channel value)
  | m_balance_ratio channel => void (balance_ratio channel)
  | m_balance_ratio_range channel => void (balance_ratio_range channel)
  | m_is_stream_transfer_size_implemented => void (is_stream_transfer_size_implemented)
  | m_set_stream_transfer_size value => void (set_stream_transfer_size value)
  | m_stream_transfer_size => void (stream_transfer_size)
  | m_register_capture_callback callback data => void (register_capture_callback callback data)
  | m_unregister_capture_callback => void (unregister_capture_callback)
  | m_set_capture_callback callback data => void (set_capture_callback callback data)
  | m_start_acquisition => void (start_acquisition)
  | m_stop_acquisition => void (stop_acquisition)
  | m_capture timeout => void (capture timeout)
  | m_trigger_capture => void (trigger_capture)
  | m_flush_queue => void (flush_queue)
  end.





End Device.
End Device.

(** ** Namespace [img] *)

Module img.
Section img.
Context `{GxHeader}.

(** The case labels of the [switch] in [img::throw_if_error]. *)
Definition dx_case_labels : list VxInt32 :=
  [DX_OK; DX_PARAMETER_INVALID; DX_PARAMETER_OUT_OF_BOUND;
   DX_NOT_ENOUGH_SYSTEM_MEMORY; DX_NOT_FIND_DEVICE; DX_STATUS_NOT_SUPPORTED;
   DX_CPU_NOT_SUPPORT_ACCELERATE].

(** The [switch] of [throw_if_error]; its case labels are the distinct
    constants of DxImageProc.h. *)
Definition throw_if_error {S : Type} (s : VxInt32) : M S unit :=
  if s =? DX_OK then ret tt
  else if s =? DX_PARAMETER_INVALID then
    throw (runtime_error "invalid input parameter")
  else if s =? DX_PARAMETER_OUT_OF_BOUND then
    throw (runtime_error "the parameter is out of bound")
  else if s =? DX_NOT_ENOUGH_SYSTEM_MEMORY then
    throw bad_alloc
  else if s =? DX_NOT_FIND_DEVICE then
    throw (runtime_error "no device found")
  else if s =? DX_STATUS_NOT_SUPPORTED then
    throw (runtime_error "the format is not supported")
  else if s =? DX_CPU_NOT_SUPPORT_ACCELERATE then
    throw (runtime_error "the CPU does not support acceleration")
  else
    throw (runtime_error "unknown error").

Definition call {S : Type} (f : Call VxInt32) : M S unit :=
  s <- native f ;;
  throw_if_error s.

(** [width] and [height] are [std::uint32_t], and so is [width * height * 3].
    [new] answers [None] when it throws [std::bad_alloc].  The
    [std::unique_ptr] deletes the array when an exception leaves the function
    and hands it to the caller otherwise. *)
Definition raw8_to_rgb24 {S : Type} (input : pointer) (width height : Z)
    (conversion_type bayer_layout : Z) (flip : bool) : M S pointer :=
  r <- native (new_array (to_uint32 (to_uint32 (width * height) * 3))) ;;
  match r with
  | None => throw bad_alloc
  | Some result =>
      on_unwind
        (call (DxRaw8toRGB24 input result width height
                 conversion_type bayer_layout flip))
        (native (delete_array result)) ;;
      ret result
  end.

End img.
End img.

(** ** A header and a scripted vendor library to run the wrapper on *)

(** Distinct values for the constants of the two headers. *)
Definition sample_header : GxHeader := {|
  GX_STATUS_SUCCESS := 0;
  GX_OPEN_SN := 0;
  GX_OPEN_IP := 1;
  GX_OPEN_MAC := 2;
  GX_OPEN_INDEX := 3;
  GX_OPEN_USERID := 4;
  DX_OK := 0;
  DX_PARAMETER_INVALID := -101;
  DX_PARAMETER_OUT_OF_BOUND := -102;
  DX_NOT_ENOUGH_SYSTEM_MEMORY := -103;
  DX_NOT_FIND_DEVICE := -104;
  DX_STATUS_NOT_SUPPORTED := -105;
  DX_CPU_NOT_SUPPORT_ACCELERATE := -106;
  static_cast_entry := fun v => v
|}.

(** The state of the scripted library.  Each GX operation takes the next
    status of [script] (success when the script is used up) and records it as
    the last error; [query_status] is what [GXGetLastError] itself returns;
    the getters store [int_value], [float_value] and [flag_value]; the image
    conversion returns [dx_status]; allocations return [fresh_ptr]. *)
Record sim : Type := mksim {
  last_error : GX_STATUS;
  script : list GX_STATUS;
  query_status : GX_STATUS;
  int_value : Z;
  float_value : double;
  flag_value : bool;
  dx_status : VxInt32;
  fresh_ptr : pointer
}.

Definition sim_message (code : GX_STATUS) : string :=
  if code =? 0 then "" else "vendor error".

Definition sim_operation (w : sim) : GX_STATUS * sim :=
  match script w with
  | [] =>
      (0, mksim 0 [] (query_status w) (int_value w) (float_value w)
            (flag_value w) (dx_status w) (fresh_ptr w))
  | s :: rest =>
      (s, mksim s rest (query_status w) (int_value w) (float_value w)
            (flag_value w) (dx_status w) (fresh_ptr w))
  end.

(** An operation with one output parameter: it stores [new] on success and
    leaves [old] otherwise. *)
Definition sim_output {A : Type} (w : sim) (old new : A)
  : (GX_STATUS * A) * sim :=
  let (s, w') := sim_operation w in
  ((s, if s =? 0 then new else old), w').

Definition sim_vendor : handler sim :=
  fun X (c : Call X) (w : sim) =>
    match c in Call X return X * sim with
    | GXInitLib => sim_operation w
    | GXCloseLib => sim_operation w
    | GXGetLastError code buf size =>
        if query_status w =? 0 then
          let msg := sim_message (last_error w) in
          ((0, (last_error w,
                match buf with Some _ => msg | None => EmptyString end,
                Z.of_nat (String.length msg))), w)
        else
          ((query_status w, (code, EmptyString, size)), w)
    | GXUpdateDeviceList num _ => sim_output w num (int_value w)
    | GXUpdateAllDeviceList num _ => sim_output w num (int_value w)
    | GXOpenDeviceByIndex _ h => sim_output w h (fresh_ptr w)
    | GXOpenDevice _ h => sim_output w h (fresh_ptr w)
    | GXCloseDevice _ => sim_operation w
    | GXStreamOn _ => sim_operation w
    | GXStreamOff _ => sim_operation w
    | GXRegisterCaptureCallback _ _ _ => sim_operation w
    | GXUnregisterCaptureCallback _ => sim_operation w
    | GXFlushQueue _ => sim_operation w
    | GXSendCommand _ _ => sim_operation w
    | GXGetEnum _ _ v => sim_output w v (int_value w)
    | GXSetEnum _ _ _ => sim_operation w
    | GXGetFloat _ _ v => sim_output w v (float_value w)
    | GXSetFloat _ _ _ => sim_operation w
    | GXGetInt _ _ v => sim_output w v (int_value w)
    | GXSetInt _ _ _ => sim_operation w
    | GXGetFloatRange _ _ r =>
        sim_output w r (mkGX_FLOAT_RANGE (float_value w) (float_value w) [])
    | GXIsImplemented _ _ b => sim_output w b (flag_value w)
    | GXGetImage _ d _ => sim_output w d d
    | DxRaw8toRGB24 _ _ _ _ _ _ _ => (dx_status w, w)
    | malloc _ => (fresh_ptr w, w)
    | free _ => (tt, w)
    | new_array _ => (Some (fresh_ptr w), w)
    | delete_array _ => (tt, w)
    end.

(** A library on which everything succeeds. *)
Definition sim_ok : sim := mksim 0 [] 0 7 9 true 0 4096.

(** The next GX operation fails with status [-1]. *)
Definition sim_failing : sim := mksim 0 [-1] 0 7 9 true 0 4096.

(** [GXGetLastError] itself fails with status [-1]. *)
Definition sim_query_failing : sim := mksim 0 [] (-1) 7 9 true 0 4096.

(** * Properties *)

(** ** Running programs *)

Lemma run_bindF {W A B : Type} (h : handler W) (p : Free A)
    (f : A -> Free B) (w : W) :
  run h (bindF p f) w =
    let '(t1, a, w1) := run h p w in
    let '(t2, b, w2) := run h (f a) w1 in
    (t1 ++ t2, b, w2).
Proof.
  revert w. induction p as [a | X c k IH]; intros w; simpl.
  - destruct (run h (f a) w) as [[t2 b] w2]. reflexivity.
  - destruct (h X c w) as [x w1]. rewrite IH.
    destruct (run h (k x) w1) as [[t1 a] w1'].
    destruct (run h (f a) w1') as [[t2 b] w2]. reflexivity.
Qed.

(** Boolean comparisons in the context, as propositions. *)
Ltac eqb_props :=
  repeat match goal with
  | E : negb _ = true |- _ => apply Bool.negb_true_iff in E
  | E : negb _ = false |- _ => apply Bool.negb_false_iff in E
  | E : (_ =? _) = true |- _ => apply Z.eqb_eq in E
  | E : (_ =? _) = false |- _ => apply Z.eqb_neq in E
  end.

(** One step of a run whose next native call has a known answer. *)
Ltac answer H :=
  cbn [run bindF bind native get put ret throw]; rewrite H.

Section BasicsFacts.
Context `{GxHeader} {W : Type} (h : handler W).

(** C1 (amended).  [call f] invokes [f] and then queries [GXGetLastError].
    When both queries succeed, it throws an [Exception] carrying the reported
    code and message if and only if that code differs from
    [GX_STATUS_SUCCESS], and it returns the answer of [f] unchanged when the
    code is [GX_STATUS_SUCCESS].  When a query itself fails with status [s],
    it throws [Exception{s, "GXGetLastError()"}] instead. *)
Theorem call_reports_last_error {S X : Type} (f : Call X) (s : S)
    (w w1 w2 w3 : W) (x : X) (s1 c1 n1 s2 c2 n2 : Z) (t1 t2 : string) :
  h _ f w = (x, w1) ->
  h _ (GXGetLastError 0 None 0) w1 = ((s1, (c1, t1, n1)), w2) ->
  h _ (GXGetLastError c1 (Some (nul_string (Z.to_nat n1))) n1) w2
    = ((s2, (c2, t2, n2)), w3) ->
  let r := run h (call f s) w in
  let msg := written_into (nul_string (Z.to_nat n1)) t2 in
  (exists t,
     trace_of r = Ev f x :: Ev (GXGetLastError 0 None 0) (s1, (c1, t1, n1)) :: t)
  /\ (s1 = GX_STATUS_SUCCESS -> s2 = GX_STATUS_SUCCESS ->
      (result_of r = (Thrown (Exception c2 msg), s)
         <-> c2 <> GX_STATUS_SUCCESS)
      /\ (c2 = GX_STATUS_SUCCESS -> result_of r = (Normal x, s)))
  /\ (s1 <> GX_STATUS_SUCCESS ->
      result_of r = (Thrown (Exception s1 "GXGetLastError()"), s))
  /\ (s1 = GX_STATUS_SUCCESS -> s2 <> GX_STATUS_SUCCESS ->
      result_of r = (Thrown (Exception s2 "GXGetLastError()"), s)).
Proof.
  intros Hf H1 H2 r msg. subst r msg.
  unfold call, throw_if_last_error, get_last_error.
  answer Hf. answer H1.
  destruct (s1 =? GX_STATUS_SUCCESS) eqn:E1.
  - answer H2. cbn.
    destruct (s2 =? GX_STATUS_SUCCESS) eqn:E2; cbn.
    + destruct (c2 =? GX_STATUS_SUCCESS) eqn:E3; cbn.
      all: (split; [eexists; reflexivity|]); eqb_props.
      all: repeat (split || intro); congruence.
    + (split; [eexists; reflexivity|]); eqb_props.
      repeat (split || intro); congruence.
  - cbn. (split; [eexists; reflexivity|]); eqb_props.
    repeat (split || intro); congruence.
Qed.

End BasicsFacts.

(** [call_reports_last_error] on the scripted library whose next operation
    fails: the reported code [-1] and its message are thrown. *)
Lemma call_reports_last_error_witness :
  result_of (run sim_vendor (call (H := sample_header) (GXStreamOff 5) tt)
               sim_failing)
  = (Thrown (Exception (-1) "vendor error"), tt).
Proof.
  pose proof (call_reports_last_error (H := sample_header) sim_vendor
                (GXStreamOff 5) tt sim_failing _ _ _ _ _ _ _ _ _ _ _ _
                eq_refl eq_refl eq_refl) as P.
  destruct P as [_ [P _]].
  destruct (P eq_refl eq_refl) as [[_ Q] _].
  apply Q. discriminate.
Defined.

(** C1 as stated fails where [GXGetLastError] itself fails: the code it
    reports is [GX_STATUS_SUCCESS] (the output parameter is left at [0]), yet
    [call] throws, with the status of the query and a fixed message, and the
    answer [0] of the native function is not passed back. *)
Lemma call_not_iff_reported_code :
  let r := run sim_vendor (call (H := sample_header) GXInitLib tt)
             sim_query_failing in
  trace_of r = [Ev GXInitLib 0;
                Ev (GXGetLastError 0 None 0) (-1, (0, EmptyString, 0))]
  /\ result_of r = (Thrown (Exception (-1) "GXGetLastError()"), tt)
  /\ ~ (0 = GX_STATUS_SUCCESS (GxHeader := sample_header) ->
        result_of r = (Normal 0, tt)).
Proof.
  cbv zeta. split; [reflexivity|]. split; [reflexivity|].
  intros P. specialize (P eq_refl). discriminate P.
Qed.

(** ** Namespace [img]: the status translator *)

Section ImgFacts.
Context `{GxHeader}.

Ltac split_nodup H :=
  repeat match type of H with
  | List.NoDup (_ :: _) =>
      let N := fresh "N" in
      apply List.NoDup_cons_iff in H; destruct H as [N H]; simpl in N
  end.

(** C3.  [img::throw_if_error] returns normally exactly for [DX_OK], throws
    [std::bad_alloc] for [DX_NOT_ENOUGH_SYSTEM_MEMORY], and throws
    [std::runtime_error] for every other status, named or not.  The case
    labels are distinct, as a [switch] requires. *)
Theorem throw_if_error_spec {S : Type} (s : VxInt32) (st : S) :
  List.NoDup img.dx_case_labels ->
  ((exists st', img.throw_if_error s st = Ret (Normal tt, st')) <-> s = DX_OK)
  /\ (s = DX_NOT_ENOUGH_SYSTEM_MEMORY ->
      img.throw_if_error s st = Ret (Thrown bad_alloc, st))
  /\ (s <> DX_OK -> s <> DX_NOT_ENOUGH_SYSTEM_MEMORY ->
      exists what,
        img.throw_if_error s st = Ret (Thrown (runtime_error what), st)).
Proof.
  intros D. unfold img.dx_case_labels in D. split_nodup D.
  unfold img.throw_if_error, ret, throw.
  destruct (s =? DX_OK) eqn:E0;
    [|destruct (s =? DX_PARAMETER_INVALID) eqn:E1;
      [|destruct (s =? DX_PARAMETER_OUT_OF_BOUND) eqn:E2;
        [|destruct (s =? DX_NOT_ENOUGH_SYSTEM_MEMORY) eqn:E3;
          [|destruct (s =? DX_NOT_FIND_DEVICE) eqn:E4;
            [|destruct (s =? DX_STATUS_NOT_SUPPORTED) eqn:E5;
              [|destruct (s =? DX_CPU_NOT_SUPPORT_ACCELERATE) eqn:E6]]]]]];
    eqb_props.
  all: repeat match goal with
       | |- _ /\ _ => split
       | |- _ <-> _ => split
       end; intros.
  all: try match goal with
       | P : exists _, _ |- _ => destruct P as [? P]
       end.
  all: first [ assumption | reflexivity | eexists; reflexivity | congruence
             | exfalso; intuition congruence ].
Qed.

End ImgFacts.

Lemma sample_labels_distinct :
  List.NoDup (img.dx_case_labels (H := sample_header)).
Proof.
  unfold img.dx_case_labels.
  repeat (apply List.NoDup_cons; [simpl; intuition discriminate|]).
  apply List.NoDup_nil.
Defined.

(** [throw_if_error_spec] with the sample header, at [-103]. *)
Lemma throw_if_error_spec_witness :
  img.throw_if_error (H := sample_header) (-103) tt
  = Ret (Thrown bad_alloc, tt).
Proof.
  destruct (throw_if_error_spec (H := sample_header) (-103) tt
              sample_labels_distinct) as [_ [P _]].
  apply P. reflexivity.
Defined.

(** ** Class [Open_param]: the named constructors *)

Section OpenParamFacts.
Context `{GxHeader}.

Lemma is_empty_iff (s : string) :
  Open_param.is_empty s = true <-> s = EmptyString.
Proof. destruct s; simpl; split; congruence. Qed.

(** [std::to_string] of a positive [int] reads back as that number. *)
Lemma to_string_reads_back (i : Z) :
  0 < i ->
  option_map Z.of_int (NilZero.int_of_string (Open_param.to_string i))
  = Some i.
Proof.
  intros Hi. unfold Open_param.to_string.
  rewrite NilZero.isi.
  - simpl. f_equal. apply DecimalZ.of_to.
  - destruct i as [|p|p]; try lia. simpl. intros [= P].
    exact (DecimalPos.Unsigned.to_uint_nonnil p P).
  - destruct i as [|p|p]; try lia. simpl. discriminate.
Qed.

(** C9.  [by_sn], [by_ip], [by_mac] and [by_userid] throw
    [std::invalid_argument] exactly for the empty string, [by_index] exactly
    for an index that is not greater than [0]; otherwise the result holds the
    given string (for [by_index] the decimal string of the index, which reads
    back as the index), the matching open mode and the given access mode. *)
Theorem named_constructors_validate (s : string) (i am : Z) :
  let throws (r : outcome Open_param.t) :=
    exists what, r = Thrown (invalid_argument what) in
  let builds (r : outcome Open_param.t) (content : string) (om : Z) :=
    exists p, r = Normal p
              /\ Open_param.content p = content
              /\ Open_param.open_mode p = om
              /\ Open_param.access_mode p = am in
  (throws (Open_param.by_sn s am) <-> s = EmptyString)
  /\ (s <> EmptyString -> builds (Open_param.by_sn s am) s GX_OPEN_SN)
  /\ (throws (Open_param.by_ip s am) <-> s = EmptyString)
  /\ (s <> EmptyString -> builds (Open_param.by_ip s am) s GX_OPEN_IP)
  /\ (throws (Open_param.by_mac s am) <-> s = EmptyString)
  /\ (s <> EmptyString -> builds (Open_param.by_mac s am) s GX_OPEN_MAC)
  /\ (throws (Open_param.by_userid s am) <-> s = EmptyString)
  /\ (s <> EmptyString ->
      builds (Open_param.by_userid s am) s GX_OPEN_USERID)
  /\ (throws (Open_param.by_index i am) <-> ~ 0 < i)
  /\ (0 < i ->
      builds (Open_param.by_index i am) (Open_param.to_string i) GX_OPEN_INDEX
      /\ option_map Z.of_int
           (NilZero.int_of_string (Open_param.to_string i)) = Some i).
Proof.
  cbv zeta.
  unfold Open_param.by_sn, Open_param.by_ip, Open_param.by_mac,
    Open_param.by_userid, Open_param.by_index.
  pose proof (is_empty_iff s) as Es.
  destruct (Open_param.is_empty s);
    [assert (s = EmptyString) as E by (apply Es; reflexivity)
    |assert (s <> EmptyString) as E by (intros P; apply Es in P; discriminate)];
  (destruct (0 <? i) eqn:Ei;
    [apply Z.ltb_lt in Ei | apply Z.ltb_ge in Ei]); simpl.
  all: repeat match goal with
       | |- _ /\ _ => split
       | |- _ <-> _ => split
       end; intros.
  all: try match goal with
       | P : exists _, _ |- _ => destruct P as [? P]
       end.
  all: try first [ assumption | congruence | lia
                 | eexists; reflexivity
                 | eexists; repeat split; reflexivity
                 | apply to_string_reads_back; assumption ].
  all: split; [eexists; repeat split; reflexivity
              | apply to_string_reads_back; assumption].
Qed.

End OpenParamFacts.

(** [named_constructors_validate] for the index [42]. *)
Lemma named_constructors_validate_witness :
  0 < 42
  /\ exists p, Open_param.by_index (H := sample_header) 42 3 = Normal p
               /\ Open_param.content p = "42"%string
               /\ Open_param.open_mode p = 3
               /\ Open_param.access_mode p = 3.
Proof.
  split; [reflexivity|].
  pose proof (named_constructors_validate (H := sample_header)
                "KE0200060396" 42 3) as P.
  cbv zeta in P.
  destruct P as (_ & _ & _ & _ & _ & _ & _ & _ & _ & P).
  exact (proj1 (P eq_refl)).
Defined.

(** ** Class [Device]: closing *)

(** Runs a program symbolically against an arbitrary handler [h]: every
    native call gets a fresh answer, every test is split. *)
Ltac exec h :=
  repeat first
    [ progress cbn
    | match goal with
      | x : (_ * _)%type |- _ => destruct x
      | x : option _ |- _ => destruct x
      | |- context [h ?X ?c ?w] =>
          let E := fresh "E" in destruct (h X c w) eqn:E
      | |- context [if ?b then _ else _] =>
          let B := fresh "B" in destruct b eqn:B
      end ].

Section DeviceCloseFacts.
Context `{GxHeader} {W : Type} (h : handler W).


End DeviceCloseFacts.



(** ** Class [Library]: the reference counter *)

Lemma to_int32_small (z : Z) : - 2 ^ 31 <= z < 2 ^ 31 -> to_int32 z = z.
Proof.
  intros Hz. unfold to_int32.
  rewrite Z.mod_small by lia. lia.
Qed.

Lemma to_int32_add (c k : Z) : to_int32 (to_int32 c + k) = to_int32 (c + k).
Proof.
  unfold to_int32.
  replace ((c + 2 ^ 31) mod 2 ^ 32 - 2 ^ 31 + k + 2 ^ 31)
    with ((c + 2 ^ 31) mod 2 ^ 32 + k) by lia.
  rewrite Zplus_mod_idemp_l. f_equal. f_equal. lia.
Qed.

Lemma count_refer_app (l1 l2 : list (option bool)) :
  Library.count_refer (l1 ++ l2)
  = Library.count_refer l1 + Library.count_refer l2.
Proof. induction l1 as [|o l1 IH]; simpl; lia. Qed.

Lemma count_refer_insert (l : list (option bool)) (i : nat)
    (x y : option bool) :
  l !! i = Some x ->
  Library.count_refer (<[i := y]> l)
  = Library.count_refer l - Library.weight x + Library.weight y.
Proof.
  revert i. induction l as [|o l IH]; intros [|i] Hi; simpl in *;
    try discriminate.
  - injection Hi as ->. lia.
  - rewrite (IH i Hi). lia.
Qed.

Lemma count_refer_bounds (l : list (option bool)) :
  0 <= Library.count_refer l <= Z.of_nat (length l).
Proof.
  induction l as [|[[|]|] l IH]; simpl length; simpl Library.count_refer;
    unfold Library.weight; lia.
Qed.

Lemma count_refer_lookup (l : list (option bool)) (i : nat) :
  l !! i = Some (Some true) -> 1 <= Library.count_refer l.
Proof.
  revert i. induction l as [|o l IH]; intros [|i] Hi; simpl in *;
    try discriminate.
  - injection Hi as ->. pose proof (count_refer_bounds l). simpl. lia.
  - pose proof (IH i Hi). destruct o as [[|]|]; simpl; lia.
Qed.

Lemma to_int32_sub (c k : Z) : to_int32 (to_int32 c - k) = to_int32 (c - k).
Proof.
  replace (to_int32 c - k) with (to_int32 c + - k) by lia.
  rewrite to_int32_add. reflexivity.
Qed.

(** Closes the cases of a symbolic run of a [Library] member function. *)
Ltac library_case :=
  repeat match goal with
  | |- _ /\ _ => split
  | |- _ <-> _ => split
  end; intros;
  try solve [ match goal with
              | P : ?r = to_int32 ?c |- _ => rewrite P
              end;
              rewrite ?to_int32_add, ?to_int32_sub; f_equal;
              unfold Library.weight; lia ];
  repeat match goal with
  | P : _ /\ _ |- _ => destruct P
  | P : exists _, _ |- _ => destruct P
  end;
  subst;
  try discriminate; try congruence;
  try solve [ exfalso;
              match goal with
              | P : to_int32 _ = _ |- _ => vm_compute in P; discriminate P
              end ];
  try solve [ repeat split; try reflexivity; eauto ].

Section LibraryFacts.
Context `{GxHeader} {W : Type} (h : handler W).

Lemma open_counts (r : Z) (b : bool) (w : W) :
  Library.counts h Library.open r b w Some.
Proof.
  unfold Library.counts. cbv zeta.
  unfold Library.open, call, throw_if_last_error, get_last_error.
  exec h; eqb_props; library_case.
Qed.

Lemma close_counts (r : Z) (b : bool) (w : W) :
  Library.counts h Library.close r b w Some.
Proof.
  unfold Library.counts. cbv zeta.
  unfold Library.close, call, throw_if_last_error, get_last_error.
  exec h; eqb_props; library_case.
Qed.

Lemma dtor_counts (r : Z) (b : bool) (w : W) :
  Library.counts h Library.dtor r b w (fun _ => None).
Proof.
  unfold Library.counts. cbv zeta. unfold Library.dtor.
  exec h; eqb_props; library_case.
Qed.

Lemma ctor_counts (auto_open : bool) (r : Z) (w : W) :
  Library.counts h (Library.ctor auto_open) r false w Some.
Proof.
  destruct auto_open; [apply open_counts|].
  unfold Library.counts. cbv zeta. unfold Library.ctor.
  exec h; eqb_props; library_case.
Qed.

Lemma to_int32_succ_nonzero (r : Z) :
  0 <= r < 2 ^ 31 -> to_int32 (r + 1) <> 0.
Proof.
  intros Hr. destruct (Z.eq_dec r (2 ^ 31 - 1)) as [->|Hne].
  - vm_compute. discriminate.
  - rewrite to_int32_small; lia.
Qed.

(** A constructor that throws leaves the counter as it was (the counter
    being a count). *)
Lemma ctor_throws_unchanged (auto_open : bool) (r : Z) (w : W) (e : exn) :
  let res := run h (Library.ctor auto_open (Library.mk r false)) w in
  fst (result_of res) = Thrown e ->
  0 <= r < 2 ^ 31 ->
  snd (result_of res) = Library.mk r false.
Proof.
  cbv zeta.
  unfold Library.ctor, Library.open, call, throw_if_last_error,
    get_last_error.
  exec h; eqb_props; intros; try discriminate; try reflexivity.
  all: exfalso;
    match goal with
    | P : to_int32 (?r + 1) = 0 |- _ =>
        exact (to_int32_succ_nonzero r ltac:(assumption) P)
    end.
Qed.

(** The facts of [Library.counts], for a client action on the heap. *)
Lemma step_counts (o : Library.op) (hp : Library.heap) (w : W) :
  let res := run h (Library.step o hp) w in
  let hp' := snd (result_of res) in
  (Library.static_refs hp = Library.count_refer (Library.objects hp) ->
   Z.of_nat (length (Library.objects hp')) < 2 ^ 31 ->
   Library.static_refs hp' = Library.count_refer (Library.objects hp'))
  /\ (length (Library.objects hp) <= length (Library.objects hp'))%nat
  /\ ((Library.static_refs hp = 0 /\ Library.static_refs hp' = 1)
      <-> (existsb is_init_lib (trace_of res) = true
           /\ exists a, fst (result_of res) = Normal a))
  /\ ((Library.static_refs hp = 1 /\ Library.static_refs hp' = 0)
      <-> (existsb is_close_lib (trace_of res) = true
           /\ exists a, fst (result_of res) = Normal a)).
Proof.
  assert (forall c (l : list (option bool)), 0 <= c <= Z.of_nat (length l) ->
            Z.of_nat (length l) < 2 ^ 31 -> to_int32 c = c) as Small.
  { intros c l Hc Hl. apply to_int32_small. lia. }
  assert (forall i m after,
            (forall r b w', Library.counts h m r b w' after) ->
            let res := run h (Library.on_object i m after hp) w in
            let hp' := snd (result_of res) in
            (Library.static_refs hp
               = Library.count_refer (Library.objects hp) ->
             Z.of_nat (length (Library.objects hp')) < 2 ^ 31 ->
             Library.static_refs hp'
               = Library.count_refer (Library.objects hp'))
            /\ (length (Library.objects hp)
                <= length (Library.objects hp'))%nat
            /\ ((Library.static_refs hp = 0 /\ Library.static_refs hp' = 1)
                <-> (existsb is_init_lib (trace_of res) = true
                     /\ exists a, fst (result_of res) = Normal a))
            /\ ((Library.static_refs hp = 1 /\ Library.static_refs hp' = 0)
                <-> (existsb is_close_lib (trace_of res) = true
                     /\ exists a, fst (result_of res) = Normal a)))
    as On.
  { intros i m after Hm. cbv zeta. unfold Library.on_object.
    destruct (Library.objects hp !! i) as [[b|]|] eqn:Hi;
      [|cbn; repeat split; intros; library_case ..].
    specialize (Hm (Library.static_refs hp) b w).
    unfold Library.counts in Hm. cbv zeta in Hm.
    rewrite run_bindF.
    destruct (run h (m (Library.mk (Library.static_refs hp) b)) w)
      as [[t [out s']] w1].
    unfold trace_of, result_of in *. cbn [fst snd] in Hm.
    destruct Hm as (Hc & Hi0 & Hc0).
    assert (forall o' : outcome unit,
              (exists a : unit, o' = Normal a) <->
              exists a : option unit,
                match o' with
                | Normal a' => Normal (Some a')
                | Thrown e => Thrown e
                end = Normal a) as Eo.
    { intros [a|e]; split; intros [a' P];
        first [discriminate P | eexists; reflexivity]. }
    pose proof (count_refer_bounds (Library.objects hp)) as Hb.
    pose proof (count_refer_bounds
                  (<[i := after (Library.is_refer_ s')]> (Library.objects hp)))
      as Hb'.
    destruct out as [a|e]; cbn; rewrite ?app_nil_r.
    all: split;
      [intros Inv Len;
       rewrite (count_refer_insert _ _ _ _ Hi) in *;
       rewrite length_insert in *;
       rewrite (Hc (Library.count_refer (Library.objects hp)));
       [apply (Small _ (Library.objects hp)); lia
       |rewrite Inv; symmetry; apply (Small _ (Library.objects hp)); lia]|].
    all: split; [rewrite length_insert; lia|].
    all: split; [rewrite Hi0 | rewrite Hc0].
    all: cbn [fst snd]; rewrite (Eo _); cbn; reflexivity. }
  destruct o as [auto_open|i|i|i].
  - cbv zeta. unfold Library.step.
    pose proof (ctor_counts auto_open (Library.static_refs hp) w) as Hm.
    pose proof (ctor_throws_unchanged auto_open (Library.static_refs hp) w)
      as Ht.
    unfold Library.counts in Hm. cbv zeta in Hm, Ht.
    rewrite run_bindF.
    destruct (run h (Library.ctor auto_open
                       (Library.mk (Library.static_refs hp) false)) w)
      as [[t [out s']] w1].
    unfold trace_of, result_of in *. cbn [fst snd] in Hm, Ht.
    destruct Hm as (Hc & Hi0 & Hc0).
    pose proof (count_refer_bounds (Library.objects hp)) as Hb.
    destruct out as [a|e]; cbn; rewrite ?app_nil_r.
    + split.
      { intros Inv Len. rewrite length_app in Len. cbn in Len.
        pose proof (count_refer_bounds [Some (Library.is_refer_ s')]) as Hb1.
        cbn [length] in Hb1.
        rewrite count_refer_app.
        rewrite (Hc (Library.count_refer (Library.objects hp))).
        - rewrite (Small _ (Library.objects hp ++ [Some (Library.is_refer_ s')])).
          + cbn. lia.
          + rewrite length_app. cbn in *. lia.
          + rewrite length_app. cbn. lia.
        - rewrite Inv. symmetry. apply (Small _ (Library.objects hp)); lia. }
      split; [rewrite length_app; lia|].
      split; [rewrite Hi0 | rewrite Hc0]; cbn.
      all: split; intros [P Q]; (split; [exact P|]); eexists; reflexivity.
    + split.
      { intros Inv Len. rewrite (Ht e eq_refl); [exact Inv|]. lia. }
      split; [lia|].
      split; [rewrite Hi0 | rewrite Hc0]; cbn.
      all: split; intros [P [a Q]]; discriminate Q.
  - apply On. apply open_counts.
  - apply On. apply close_counts.
  - apply On. apply dtor_counts.
Qed.

End LibraryFacts.

Section LibraryClaims.
Context `{GxHeader} {W : Type} (h : handler W).

(** In a reachable state the counter is the number of referring instances,
    as long as fewer than [2^31] objects were ever created. *)
Lemma reachable_counter (w : W) (hp : Library.heap) :
  Library.reachable h w hp ->
  Z.of_nat (length (Library.objects hp)) < 2 ^ 31 ->
  Library.static_refs hp = Library.count_refer (Library.objects hp).
Proof.
  induction 1 as [w|w w' hp hp' o t out Hr IH Hrun]; intros Len.
  - reflexivity.
  - pose proof (step_counts h o hp w) as P. cbv zeta in P.
    rewrite Hrun in P. unfold result_of in P. cbn [fst snd] in P.
    destruct P as (Inv & Mono & _).
    apply Inv; [apply IH; lia | exact Len].
Qed.


(** C8 (amended).  After an [open()] that returned, a second [open()] on the
    same instance invokes nothing and changes neither [is_refer()] nor
    [reference_count()]; likewise for [close()]. *)
Theorem open_close_idempotent (s : Library.t) (w : W) :
  let opened := run h (Library.open s) w in
  let closed := run h (Library.close s) w in
  (fst (result_of opened) = Normal tt ->
   run h (Library.open (snd (result_of opened))) (world_of opened)
   = ([], (Normal tt, snd (result_of opened)), world_of opened))
  /\ (fst (result_of closed) = Normal tt ->
      run h (Library.close (snd (result_of closed))) (world_of closed)
      = ([], (Normal tt, snd (result_of closed)), world_of closed)).
Proof.
  destruct s as [r b]. cbv zeta.
  unfold Library.open, Library.close, call, throw_if_last_error,
    get_last_error.
  split; exec h; intros; try discriminate; try reflexivity.
Qed.

End LibraryClaims.



(** [open_close_idempotent] on the scripted library, for a first [open()]. *)
Lemma open_close_idempotent_witness :
  fst (result_of (run sim_vendor
                    (Library.open (H := sample_header)
                       (Library.mk 0 false)) sim_ok)) = Normal tt
  /\ run sim_vendor
       (Library.open (H := sample_header) (Library.mk 1 true)) sim_ok
     = ([], (Normal tt, Library.mk 1 true), sim_ok).
Proof.
  split; [reflexivity|].
  apply (proj1 (open_close_idempotent (H := sample_header) sim_vendor
                  (Library.mk 0 false) sim_ok)).
  reflexivity.
Defined.

(** C8 as stated fails after an [open()] that threw: the second [open()]
    invokes [GXInitLib] again and changes both [is_refer()] and
    [reference_count()]. *)
Lemma second_open_after_failure_not_noop :
  let first := run sim_vendor
                 (Library.open (H := sample_header) (Library.mk 0 false))
                 sim_failing in
  let second := run sim_vendor
                  (Library.open (H := sample_header) (snd (result_of first)))
                  (world_of first) in
  fst (result_of first) = Thrown (Exception (-1) "vendor error")
  /\ existsb is_init_lib (trace_of second) = true
  /\ Library.is_refer (snd (result_of first)) = false
  /\ Library.is_refer (snd (result_of second)) = true
  /\ Library.reference_count (snd (result_of first)) = 0
  /\ Library.reference_count (snd (result_of second)) = 1.
Proof. cbv zeta. repeat split. Qed.

(** ** Native calls per public operation *)

Create HintDb wrapper.

#[local] Hint Unfold
  call throw_if_last_error get_last_error
  update_device_list update_all_device_list
  Frame_data.dtor Frame_data.default_ctor
  Library.open Library.close Library.dtor Library.ctor
  img.call img.throw_if_error img.raw8_to_rgb24
  Device.ctor Device.ctor_by_index Device.ctor_by_param
  Device.ctor_by_open_param Device.move_ctor Device.swap Device.handle
  Device.to_bool Device.release Device.close Device.reset
  Device.close_nothrow Device.dtor Device.move_assign Device.get_enum
  Device.set_enum Device.get_float Device.set_float Device.get_int
  Device.set_int Device.get_float_range Device.is_implemented
  Device.get_entry Device.is_device_link_throughput_limit_mode_implemented
  Device.set_device_link_throughput_limit_mode
  Device.device_link_throughput_limit_mode
  Device.is_timestamp_tick_frequency_implemented
  Device.timestamp_tick_frequency Device.is_timestamp_latch_value_implemented
  Device.timestamp_latch_value Device.is_latch_timestamp_implemented
  Device.latch_timestamp Device.is_reset_timestamp_implemented
  Device.reset_timestamp Device.is_latch_reset_timestamp_implemented
  Device.latch_reset_timestamp Device.is_pixel_format_implemented
  Device.set_pixel_format Device.pixel_format Device.payload_size
  Device.is_trigger_mode_implemented Device.set_trigger_mode
  Device.trigger_mode Device.is_trigger_source_implemented
  Device.set_trigger_source Device.trigger_source
  Device.is_external_trigger_switch_implemented
  Device.set_external_trigger_switch Device.external_trigger_switch
  Device.is_trigger_filter_raising_implemented
  Device.set_trigger_filter_raising Device.trigger_filter_raising
  Device.trigger_filter_raising_range
  Device.is_trigger_filter_falling_implemented
  Device.set_trigger_filter_falling Device.trigger_filter_falling
  Device.trigger_filter_falling_range Device.is_trigger_delay_implemented
  Device.set_trigger_delay Device.trigger_delay Device.trigger_delay_range
  Device.is_exposure_time_implemented Device.set_exposure_time
  Device.exposure_time Device.exposure_time_range
  Device.is_exposure_delay_implemented Device.set_exposure_delay
  Device.exposure_delay Device.exposure_delay_range
  Device.is_exposure_mode_implemented Device.set_exposure_mode
  Device.exposure_mode Device.is_exposure_auto_implemented
  Device.set_exposure_auto Device.exposure_auto
  Device.is_gain_auto_implemented Device.set_gain_auto Device.gain_auto
  Device.is_gain_implemented Device.set_gain Device.gain Device.gain_range
  Device.is_balance_ratio_implemented Device.set_balance_ratio
  Device.balance_ratio Device.balance_ratio_range
  Device.is_stream_transfer_size_implemented Device.set_stream_transfer_size
  Device.stream_transfer_size Device.register_capture_callback
  Device.unregister_capture_callback Device.set_capture_callback
  Device.start_acquisition Device.stop_acquisition Device.capture
  Device.trigger_capture Device.flush_queue Device.void Device.invoke
  : wrapper.

Section NativeCalls.
Context `{GxHeader} {W : Type} (h : handler W).




End NativeCalls.



(** ** Feature accessors *)

Section AccessorFacts.
Context `{GxHeader} {W : Type} (h : handler W).

(** What the private accessors hand back is what the vendor function left
    in its output parameter ([get_entry]: its cast), and the setters pass
    the caller's value on, for the feature they are given. *)
Lemma accessors_pass_through (f : GX_FEATURE_ID) (d : Device.t) (w : W) :
  let hd := Device.handle_ d in
  (forall v, fst (result_of (run h (Device.get_enum f d) w)) = Normal v ->
     exists s t, trace_of (run h (Device.get_enum f d) w)
                 = Ev (GXGetEnum hd f 0) (s, v) :: t)
  /\ (forall v, fst (result_of (run h (Device.get_entry f d) w)) = Normal v ->
      exists s v0 t, trace_of (run h (Device.get_entry f d) w)
                     = Ev (GXGetEnum hd f 0) (s, v0) :: t
                     /\ v = static_cast_entry v0)
  /\ (forall v, fst (result_of (run h (Device.get_int f d) w)) = Normal v ->
      exists s t, trace_of (run h (Device.get_int f d) w)
                  = Ev (GXGetInt hd f 0) (s, v) :: t)
  /\ (forall v, fst (result_of (run h (Device.get_float f d) w)) = Normal v ->
      exists s t, trace_of (run h (Device.get_float f d) w)
                  = Ev (GXGetFloat hd f 0) (s, v) :: t)
  /\ (forall v, exists s t, trace_of (run h (Device.set_enum f v d) w)
                            = Ev (GXSetEnum hd f v) s :: t)
  /\ (forall v, exists s t, trace_of (run h (Device.set_int f v d) w)
                            = Ev (GXSetInt hd f v) s :: t)
  /\ (forall v, exists s t, trace_of (run h (Device.set_float f v d) w)
                            = Ev (GXSetFloat hd f v) s :: t).
Proof.
  destruct d as [hd]. cbv zeta. cbn [Device.handle_].
  unfold Device.get_entry.
  repeat split; intros v; autounfold with wrapper; exec h;
    try (intros P; first [discriminate P | injection P as <-]); eauto.
Qed.

End AccessorFacts.

(** C5 at the failing input: the vendor library stores [4294967301] for
    [GX_INT_TIMESTAMP_LATCH_VALUE], and [timestamp_latch_value()], declared
    to return [int], hands back [5]; [payload_size()], declared to return
    [std::int64_t], hands the same stored value back unchanged. *)
Lemma timestamp_latch_value_truncates :
  let big := mksim 0 [] 0 4294967301 9 true 0 4096 in
  let r := run sim_vendor
             (Device.timestamp_latch_value (H := sample_header)
                (Device.mk 5)) big in
  let r' := run sim_vendor
              (Device.payload_size (H := sample_header) (Device.mk 5)) big in
  hd_error (trace_of r)
  = Some (Ev (GXGetInt 5 GX_INT_TIMESTAMP_LATCH_VALUE 0) (0, 4294967301))
  /\ fst (result_of r) = Normal 5
  /\ fst (result_of r') = Normal 4294967301.
Proof. cbv zeta. repeat split. Qed.

(** ** [img::raw8_to_rgb24] *)

Section Raw8Facts.
Context `{GxHeader} {W : Type} (h : handler W).

Lemma buffer_size_wraps (width height : Z) :
  to_uint32 (to_uint32 (width * height) * 3)
  = (width * height * 3) mod 2 ^ 32.
Proof. unfold to_uint32. apply Z.mul_mod_idemp_l. lia. Qed.

(** The run of [raw8_to_rgb24]: the buffer has [(width * height * 3) mod
    2^32] bytes; the conversion gets the caller's arguments and the buffer;
    the buffer is returned exactly when the conversion returns [DX_OK] and
    deleted while the exception propagates otherwise. *)
Lemma raw8_to_rgb24_runs (input width height conversion_type bayer_layout : Z)
    (flip : bool) (w w1 w2 w3 : W) (result : pointer) (s : VxInt32) :
  let size := (width * height * 3) mod 2 ^ 32 in
  let conversion := DxRaw8toRGB24 input result width height conversion_type
                      bayer_layout flip in
  let r := run h (img.raw8_to_rgb24 input width height conversion_type
                    bayer_layout flip tt) w in
  h _ (new_array size) w = (Some result, w1) ->
  h _ conversion w1 = (s, w2) ->
  h _ (delete_array result) w2 = (tt, w3) ->
  (s = DX_OK ->
   r = ([Ev (new_array size) (Some result); Ev conversion s],
        (Normal result, tt), w2))
  /\ (s <> DX_OK ->
      exists e,
        r = ([Ev (new_array size) (Some result); Ev conversion s;
              Ev (delete_array result) tt],
             (Thrown e, tt), w3)).
Proof.
  cbv zeta. intros Hn Hc Hd.
  unfold img.raw8_to_rgb24. rewrite buffer_size_wraps.
  answer Hn. cbn. unfold img.call. answer Hc.
  unfold img.throw_if_error.
  split; intros Hs.
  - apply Z.eqb_eq in Hs. rewrite Hs. reflexivity.
  - apply Z.eqb_neq in Hs. rewrite Hs.
    repeat match goal with
    | |- context [?a =? ?b] => destruct (a =? b)
    end; cbn; rewrite Hd; eexists; reflexivity.
Qed.

End Raw8Facts.

(** C6 at the failing input: for a 40000 x 40000 image the buffer has
    [505032704] bytes, not [40000 * 40000 * 3 = 4800000000], and the
    conversion is still invoked on it with the full dimensions. *)
Lemma raw8_to_rgb24_buffer_too_small :
  let r := run sim_vendor
             (img.raw8_to_rgb24 (H := sample_header) 8192 40000 40000 0 0
                false tt) sim_ok in
  trace_of r
  = [Ev (new_array 505032704) (Some 4096);
     Ev (DxRaw8toRGB24 8192 4096 40000 40000 0 0 false) 0]
  /\ result_of r = (Normal 4096, tt)
  /\ 40000 * 40000 * 3 = 4800000000.
Proof. cbv zeta. repeat split. Qed.

(** * Further properties of the wrapper *)

(** ** Class [Open_param]: value semantics and [index()] *)

Section OpenParamValueFacts.
Context `{GxHeader}.


(** X2.  The move constructor hands content, open mode and access mode over
    to the new object and leaves the source with empty content and both
    modes [0]; assigning the original to the emptied source gives the moved
    object again. *)
Theorem open_param_move_resets_source (p : Open_param.t) :
  let (this, rhs) := Open_param.move_ctor p in
  Open_param.content this = Open_param.content p
  /\ Open_param.open_mode this = Open_param.open_mode p
  /\ Open_param.access_mode this = Open_param.access_mode p
  /\ Open_param.content rhs = EmptyString
  /\ Open_param.open_mode rhs = 0
  /\ Open_param.access_mode rhs = 0
  /\ Open_param.assign rhs p = this.
Proof. destruct p. repeat split. Qed.

Lemma digits_of_uint_acc (d : Decimal.uint) (acc : positive) :
  Open_param.digits (NilEmpty.string_of_uint d) (Z.pos acc) true
  = Some (Z.pos (Pos.of_uint_acc d acc)).
Proof.
  revert acc. induction d; intros acc; cbn [NilEmpty.string_of_uint];
    [reflexivity|..];
    cbn [Open_param.digits]; unfold Open_param.digit_of; cbn;
    rewrite <- IHd; f_equal; lia.
Qed.

Lemma digits_of_uint (d : Decimal.uint) (seen : bool) :
  d <> Decimal.Nil \/ seen = true ->
  Open_param.digits (NilEmpty.string_of_uint d) 0 seen
  = Some (Z.of_N (Pos.of_uint d)).
Proof.
  revert seen. induction d; intros seen Hd; cbn [NilEmpty.string_of_uint];
    [destruct Hd as [Hd| ->]; [congruence | reflexivity] | ..];
    cbn [Open_param.digits]; unfold Open_param.digit_of; cbn.
  - apply IHd. right. reflexivity.
  - apply (digits_of_uint_acc d 1).
  - apply (digits_of_uint_acc d 2).
  - apply (digits_of_uint_acc d 3).
  - apply (digits_of_uint_acc d 4).
  - apply (digits_of_uint_acc d 5).
  - apply (digits_of_uint_acc d 6).
  - apply (digits_of_uint_acc d 7).
  - apply (digits_of_uint_acc d 8).
  - apply (digits_of_uint_acc d 9).
Qed.

(** A string of digits starts with neither white space nor a sign. *)
Lemma digit_string_plain (d : Decimal.uint) :
  d <> Decimal.Nil ->
  let s := NilEmpty.string_of_uint d in
  Open_param.skip_spaces s = s
  /\ match s with
     | String c s' =>
         if Ascii.eqb c "-" then (true, s')
         else if Ascii.eqb c "+" then (false, s')
         else (false, s)
     | EmptyString => (false, s)
     end = (false, s).
Proof. destruct d; [congruence|..]; intros _; split; reflexivity. Qed.

(** [std::stoul] reads [std::to_string] of a positive number back. *)
Lemma stoul_to_string (i : Z) :
  0 < i < 2 ^ 64 -> Open_param.stoul (Open_param.to_string i) = Some i.
Proof.
  intros Hi. destruct i as [|p|p]; try lia.
  unfold Open_param.to_string. cbn [Z.to_int NilZero.string_of_int].
  pose proof (DecimalPos.Unsigned.to_uint_nonnil p) as Hn.
  pose proof (DecimalPos.Unsigned.of_to p) as Hof.
  assert (NilZero.string_of_uint (Pos.to_uint p)
          = NilEmpty.string_of_uint (Pos.to_uint p)) as ->.
  { unfold NilZero.string_of_uint. destruct (Pos.to_uint p); congruence. }
  destruct (digit_string_plain _ Hn) as [Hs Hm]. cbv zeta in Hs, Hm.
  unfold Open_param.stoul. cbv zeta. rewrite Hs, Hm.
  rewrite digits_of_uint by (left; exact Hn).
  rewrite Hof. cbn [Z.of_N].
  destruct (2 ^ 64 - 1 <? Z.pos p) eqn:E;
    [apply Z.ltb_lt in E; lia | reflexivity].
Qed.

(** X3.  [index()] gives back the index [by_index] was called with (a
    positive [int]); it is [0] for every open mode other than
    [GX_OPEN_INDEX]; and in mode [GX_OPEN_INDEX] with empty content it does
    not return, since [std::stoul] throws inside a [noexcept] function. *)
Theorem index_reads_by_index_back (i am om : Z) (content : string) :
  0 < i < 2 ^ 31 ->
  om <> GX_OPEN_INDEX ->
  (exists p, Open_param.by_index i am = Normal p
             /\ Open_param.index p = Some i)
  /\ Open_param.index (Open_param.ctor content om am) = Some 0
  /\ Open_param.index (Open_param.ctor EmptyString GX_OPEN_INDEX am) = None.
Proof.
  intros Hi Hom. split; [|split].
  - unfold Open_param.by_index.
    destruct (0 <? i) eqn:E; [|apply Z.ltb_ge in E; lia]. cbn [negb].
    eexists. split; [reflexivity|].
    unfold Open_param.index, Open_param.ctor, Open_param.open_mode.
    cbn [Open_param.open_mode_ Open_param.content_].
    rewrite Z.eqb_refl, stoul_to_string by lia.
    cbn [option_map]. f_equal. unfold to_uint32. apply Z.mod_small. lia.
  - unfold Open_param.index, Open_param.ctor, Open_param.open_mode.
    cbn [Open_param.open_mode_]. apply Z.eqb_neq in Hom. rewrite Hom.
    reflexivity.
  - unfold Open_param.index, Open_param.ctor, Open_param.open_mode.
    cbn [Open_param.open_mode_ Open_param.content_].
    rewrite Z.eqb_refl. reflexivity.
Qed.

End OpenParamValueFacts.

(** [index_reads_by_index_back] for the index [42], against the serial-number
    mode. *)
Lemma index_reads_by_index_back_witness :
  0 < 42 < 2 ^ 31
  /\ GX_OPEN_SN (GxHeader := sample_header)
     <> GX_OPEN_INDEX (GxHeader := sample_header)
  /\ exists p, Open_param.by_index (H := sample_header) 42 3 = Normal p
               /\ Open_param.index (H := sample_header) p = Some 42.
Proof.
  assert (0 < 42 < 2 ^ 31) as Hi by (split; reflexivity).
  assert (GX_OPEN_SN (GxHeader := sample_header)
          <> GX_OPEN_INDEX (GxHeader := sample_header)) as Hom
    by discriminate.
  split; [exact Hi|]. split; [exact Hom|].
  exact (proj1 (index_reads_by_index_back (H := sample_header) 42 3
                  (GX_OPEN_SN (GxHeader := sample_header)) "KE0200060396"
                  Hi Hom)).
Defined.

(** ** Basics: the message of the last error *)

Section BasicsMoreFacts.
Context `{GxHeader} {W : Type} (h : handler W).

Lemma length_nul_string (n : nat) : String.length (nul_string n) = n.
Proof. induction n as [|n IH]; simpl; congruence. Qed.

Lemma length_written_into (buf text : string) :
  String.length (written_into buf text) = String.length buf.
Proof.
  revert text. induction buf as [|b buf IH]; intros [|c text]; simpl;
    try rewrite IH; reflexivity.
Qed.

(** X4.  When [get_last_error] returns, it has queried [GXGetLastError]
    exactly twice, and the message has exactly the size the first query
    announced, whatever the second query wrote. *)
Theorem get_last_error_message_size {S : Type} (st : S) (w w1 : W)
    (s1 c1 n1 : Z) (t1 : string) (code : GX_STATUS) (str : string) :
  h _ (GXGetLastError 0 None 0) w = ((s1, (c1, t1, n1)), w1) ->
  fst (result_of (run h (get_last_error st) w)) = Normal (code, str) ->
  String.length str = Z.to_nat n1
  /\ length (trace_of (run h (get_last_error st) w)) = 2%nat.
Proof.
  intros H1. unfold get_last_error. answer H1.
  exec h; intros P; try discriminate P.
  injection P as <- <-.
  rewrite length_written_into, length_nul_string. split; reflexivity.
Qed.

End BasicsMoreFacts.

(** [get_last_error_message_size] on the scripted library after a failed
    operation: the message has the 12 characters announced. *)
Lemma get_last_error_message_size_witness :
  let w := mksim (-1) [] 0 7 9 true 0 4096 in
  String.length "vendor error" = Z.to_nat 12
  /\ length (trace_of (run sim_vendor
                         (get_last_error (H := sample_header) tt) w))
     = 2%nat.
Proof.
  cbv zeta.
  exact (get_last_error_message_size (H := sample_header) sim_vendor tt
           (mksim (-1) [] 0 7 9 true 0 4096) _ _ _ _ _ (-1) "vendor error"
           eq_refl eq_refl).
Defined.

(** ** Class [Device]: handles, exceptions and call order *)

Section DeviceMoreFacts.
Context `{GxHeader} {W : Type} (h : handler W).

(** X5.  Given that [GX_STATUS_SUCCESS] is [0], [close_nothrow] on a
    non-null handle returns [true] exactly when [GXStreamOff],
    [GXUnregisterCaptureCallback] and [GXCloseDevice] all returned success;
    the handle is null afterwards either way. *)
Theorem close_nothrow_result (hd : GX_DEV_HANDLE) (w w1 w2 w3 : W)
    (s1 s2 s3 : GX_STATUS) :
  GX_STATUS_SUCCESS = 0 ->
  hd <> 0 ->
  h _ (GXStreamOff hd) w = (s1, w1) ->
  h _ (GXUnregisterCaptureCallback hd) w1 = (s2, w2) ->
  h _ (GXCloseDevice hd) w2 = (s3, w3) ->
  exists b,
    result_of (run h (Device.close_nothrow (Device.mk hd)) w)
    = (Normal b, Device.mk 0)
    /\ (b = true <-> s1 = 0 /\ s2 = 0 /\ s3 = 0).
Proof.
  intros Hz Hhd H1 H2 H3. apply Z.eqb_neq in Hhd.
  unfold Device.close_nothrow.
  cbn [run bindF bind native get put ret throw Device.handle_].
  rewrite Hhd. cbn [negb]. answer H1. answer H2. answer H3. cbn.
  eexists. split; [reflexivity|].
  rewrite Hz, Z.eqb_eq, !Z.lor_eq_0_iff. tauto.
Qed.

(** X6.  After [release()] the destructor invokes nothing: the released
    handle is returned and the device behind it is left open. *)
Theorem release_then_destroy (d : Device.t) (w : W) :
  run h ((hd <- Device.release ;; Device.dtor ;; ret hd) d) w
  = ([], (Normal (Device.handle_ d), Device.mk 0), w).
Proof. destruct d as [hd]. reflexivity. Qed.


(** X8.  [set_capture_callback] always invokes
    [GXUnregisterCaptureCallback] and then [GXRegisterCaptureCallback] with
    the given callback and data, whatever the unregistration returns. *)
Theorem set_capture_callback_always_registers (callback data : pointer)
    (d : Device.t) (w : W) :
  let hd := Device.handle_ d in
  exists s1 s2,
    operations (trace_of (run h (Device.set_capture_callback callback data d)
                            w))
    = [Ev (GXUnregisterCaptureCallback hd) s1;
       Ev (GXRegisterCaptureCallback hd data callback) s2].
Proof.
  destruct d as [hd]. cbv zeta. autounfold with wrapper. exec h; eauto.
Qed.



(** X11.  Every native call a member function of [Device] makes on a device
    handle is made on the handle of that very object. *)
Theorem device_calls_use_own_handle (m : Device.method) (d : Device.t)
    (w : W) :
  Forall (fun e => forall hd, event_handle e = Some hd ->
                              hd = Device.handle_ d)
    (trace_of (run h (Device.invoke m d) w)).
Proof.
  destruct d as [hd0].
  destruct m; cbn [Device.invoke]; autounfold with wrapper; exec h;
    repeat constructor; cbn; intros ? P; congruence.
Qed.

(** X12.  [close] and [reset] do not look at the handle: whatever it is, the
    null handle included, [close] starts with [GXStreamOff] and [reset] with
    the reset command on it. *)
Theorem close_and_reset_do_not_guard_handle (d : Device.t) (w : W) :
  let hd := Device.handle_ d in
  (exists s, hd_error (trace_of (run h (Device.close d) w))
             = Some (Ev (GXStreamOff hd) s))
  /\ (exists s, hd_error (trace_of (run h (Device.reset d) w))
                = Some (Ev (GXSendCommand hd GX_COMMAND_DEVICE_RESET) s)).
Proof.
  destruct d as [hd]. cbv zeta.
  split; autounfold with wrapper; exec h; eauto.
Qed.




(** X16.  The device-list functions pass the timeout reduced modulo [2^32]
    and return the count the vendor library stored; a range getter returns
    the [dMin] and [dMax] of the stored range, and [is_implemented] the
    stored flag, for the feature it is given. *)
Theorem lists_ranges_flags_pass_through (timeout : Z) (f : GX_FEATURE_ID)
    (d : Device.t) (w : W) :
  let hd := Device.handle_ d in
  (forall n,
     fst (result_of (run h (update_device_list timeout tt) w)) = Normal n ->
     exists s t,
       trace_of (run h (update_device_list timeout tt) w)
       = Ev (GXUpdateDeviceList 0 (timeout mod 2 ^ 32)) (s, n) :: t)
  /\ (forall n,
        fst (result_of (run h (update_all_device_list timeout tt) w))
        = Normal n ->
        exists s t,
          trace_of (run h (update_all_device_list timeout tt) w)
          = Ev (GXUpdateAllDeviceList 0 (timeout mod 2 ^ 32)) (s, n) :: t)
  /\ (forall lo hi,
        fst (result_of (run h (Device.get_float_range f d) w))
        = Normal (lo, hi) ->
        exists s r t,
          trace_of (run h (Device.get_float_range f d) w)
          = Ev (GXGetFloatRange hd f (mkGX_FLOAT_RANGE 0 0 [])) (s, r) :: t
          /\ lo = dMin r /\ hi = dMax r)
  /\ (forall b,
        fst (result_of (run h (Device.is_implemented f d) w)) = Normal b ->
        exists s t,
          trace_of (run h (Device.is_implemented f d) w)
          = Ev (GXIsImplemented hd f false) (s, b) :: t).
Proof.
  destruct d as [hd]. cbv zeta. cbn [Device.handle_].
  split; [|split; [|split]].
  - intros n. autounfold with wrapper. unfold to_uint32.
    exec h; intros P; try discriminate P; injection P as <-; eauto.
  - intros n. autounfold with wrapper. unfold to_uint32.
    exec h; intros P; try discriminate P; injection P as <-; eauto.
  - intros lo hi. autounfold with wrapper.
    exec h; intros P; try discriminate P; injection P as <- <-; eauto 10.
  - intros b. autounfold with wrapper.
    exec h; intros P; try discriminate P; injection P as <-; eauto.
Qed.

End DeviceMoreFacts.

(** [close_nothrow_result] on the scripted library whose [GXStreamOff]
    fails with [-1]. *)
Lemma close_nothrow_result_witness :
  exists b,
    result_of (run sim_vendor
                 (Device.close_nothrow (H := sample_header) (Device.mk 5))
                 sim_failing)
    = (Normal b, Device.mk 0)
    /\ (b = true <-> -1 = 0 /\ 0 = 0 /\ 0 = 0).
Proof.
  exact (close_nothrow_result (H := sample_header) sim_vendor 5
           sim_failing _ _ _ _ _ _ eq_refl ltac:(discriminate)
           eq_refl eq_refl eq_refl).
Defined.



(** ** [capture] and [Frame_data]: who frees the image buffer *)

Section CaptureFacts.
Context `{GxHeader} {W : Type} (h : handler W).

(** X17.  [capture] leaves the handle alone.  When it returns, it asked
    [malloc] once for the payload size the vendor library stored (converted
    to [std::size_t]), handed that buffer to [GXGetImage], freed nothing and
    returns the frame as [GXGetImage] left it.  When it throws, either the
    payload size could not be read, nothing was allocated and [free] got the
    null pointer, or it allocated once and freed exactly the buffer pointer
    that [GXGetImage] left in the frame. *)
Theorem capture_buffer_discipline (timeout : Z) (d : Device.t) (w : W) :
  let r := run h (Device.capture timeout d) w in
  let t := trace_of r in
  snd (result_of r) = d
  /\ (forall frame, fst (result_of r) = Normal frame ->
        freed t = []
        /\ exists size s p,
             malloc_sizes t = [to_size_t size]
             /\ In (Ev (GXGetInt (Device.handle_ d) GX_INT_PAYLOAD_SIZE 0)
                      (s, size)) t
             /\ In (Ev (malloc (to_size_t size)) p) t
             /\ exists s',
                  In (Ev (GXGetImage (Device.handle_ d)
                            (mkGX_FRAME_DATA p []) (to_int32 timeout))
                        (s', frame)) t)
  /\ (forall e, fst (result_of r) = Thrown e ->
        (malloc_sizes t = [] /\ freed t = [0])
        \/ exists size p s' frame,
             malloc_sizes t = [to_size_t size]
             /\ In (Ev (malloc (to_size_t size)) p) t
             /\ In (Ev (GXGetImage (Device.handle_ d)
                          (mkGX_FRAME_DATA p []) (to_int32 timeout))
                      (s', frame)) t
             /\ freed t = [pImgBuf frame]).
Proof.
  destruct d as [hd]. cbv zeta. autounfold with wrapper.
  exec h.
  all: split; [reflexivity|].
  all: split; [intros frame P; try discriminate P; injection P as <-
              |intros e P; try discriminate P].
  all: try (split; [reflexivity|]).
  all: try solve [left; split; reflexivity].
  all: try right.
  all: repeat eexists; cbn; eauto 20.
Qed.

(** X18.  After a move construction or a move assignment of [Frame_data],
    destroying both objects frees the buffer of the source exactly once;
    the other [free] gets the null pointer. *)
Theorem frame_data_move_frees_once (f this : GX_FRAME_DATA) (w : W) :
  let (new, old) := Frame_data.move_ctor f in
  let (this', rhs') := Frame_data.move_assign this f in
  freed (trace_of (run h ((Frame_data.dtor new ;; Frame_data.dtor old) tt) w))
  = [pImgBuf f; 0]
  /\ freed (trace_of (run h ((Frame_data.dtor this' ;; Frame_data.dtor rhs')
                               tt) w))
     = [pImgBuf f; 0].
Proof.
  cbn. unfold Frame_data.dtor. exec h. split; reflexivity.
Qed.

(** X19.  Move assignment of [Frame_data] does not free what the target
    held: a buffer of the target that is neither null nor the buffer of the
    source is freed by neither destructor. *)
Theorem frame_data_move_assign_drops_old_buffer (this rhs : GX_FRAME_DATA)
    (w : W) :
  pImgBuf this <> 0 ->
  pImgBuf this <> pImgBuf rhs ->
  let (this', rhs') := Frame_data.move_assign this rhs in
  ~ In (pImgBuf this)
       (freed (trace_of (run h ((Frame_data.dtor this' ;; Frame_data.dtor rhs')
                                  tt) w))).
Proof.
  intros Hn Hd. cbn. unfold Frame_data.dtor. exec h.
  intros [P | [P | []]]; congruence.
Qed.

End CaptureFacts.

(** [frame_data_move_assign_drops_old_buffer] for two frames with the buffers
    [4096] and [8192]. *)
Lemma frame_data_move_assign_drops_old_buffer_witness :
  ~ In 4096
       (freed (trace_of
                 (run sim_vendor
                    ((Frame_data.dtor (mkGX_FRAME_DATA 8192 []) ;;
                      Frame_data.dtor (mkGX_FRAME_DATA 0 [])) tt) sim_ok))).
Proof.
  exact (frame_data_move_assign_drops_old_buffer sim_vendor
           (mkGX_FRAME_DATA 4096 []) (mkGX_FRAME_DATA 8192 []) sim_ok
           ltac:(discriminate) ltac:(discriminate)).
Defined.

(** ** [img::raw8_to_rgb24]: the buffer when the size fits *)

Section Raw8MoreFacts.
Context `{GxHeader} {W : Type} (h : handler W).

(** X20.  When [width * height * 3] is below [2^32], [raw8_to_rgb24] first
    asks [new] for exactly that many bytes; when [new] throws,
    [std::bad_alloc] propagates and the conversion is not invoked. *)
Theorem raw8_to_rgb24_exact_without_overflow
    (input width height conversion_type bayer_layout : Z) (flip : bool)
    (w w1 : W) (o : option pointer) :
  0 <= width -> 0 <= height -> width * height * 3 < 2 ^ 32 ->
  h _ (new_array (width * height * 3)) w = (o, w1) ->
  let r := run h (img.raw8_to_rgb24 input width height conversion_type
                    bayer_layout flip tt) w in
  hd_error (trace_of r) = Some (Ev (new_array (width * height * 3)) o)
  /\ (o = None ->
      r = ([Ev (new_array (width * height * 3)) None],
           (Thrown bad_alloc, tt), w1)).
Proof.
  intros Hw Hh Hs Hn. cbv zeta. unfold img.raw8_to_rgb24.
  rewrite buffer_size_wraps, Z.mod_small by nia.
  answer Hn. autounfold with wrapper.
  destruct o as [p|]; exec h; split; intros; try discriminate; reflexivity.
Qed.

End Raw8MoreFacts.

(** [raw8_to_rgb24_exact_without_overflow] for a 640 x 480 image on the
    scripted library. *)
Lemma raw8_to_rgb24_exact_without_overflow_witness :
  hd_error (trace_of (run sim_vendor
                        (img.raw8_to_rgb24 (H := sample_header) 8192 640 480
                           0 0 false tt) sim_ok))
  = Some (Ev (new_array 921600) (Some 4096)).
Proof.
  exact (proj1 (raw8_to_rgb24_exact_without_overflow (H := sample_header)
                  sim_vendor 8192 640 480 0 0 false sim_ok sim_ok
                  (Some 4096) ltac:(discriminate) ltac:(discriminate)
                  eq_refl eq_refl)).
Defined.

(** ** Class [Library]: the counter, and when the vendor library is used *)

Section LibraryMoreFacts.
Context `{GxHeader} {W : Type} (h : handler W).

Lemma count_refer_positive (l : list (option bool)) :
  0 < Library.count_refer l -> exists i, l !! i = Some (Some true).
Proof.
  induction l as [|o l IH]; simpl; [lia|].
  destruct o as [[|]|]; unfold Library.weight.
  - intros _. exists 0%nat. reflexivity.
  - intros P. destruct (IH ltac:(lia)) as [i Hi]. exists (S i). exact Hi.
  - intros P. destruct (IH ltac:(lia)) as [i Hi]. exists (S i). exact Hi.
Qed.

(** X21.  In every reachable state (fewer than [2^31] objects created),
    [reference_count()] is the number of live instances whose [is_refer()]
    is true, and [is_open()] is true exactly when there is such an
    instance. *)
Theorem reference_count_counts_instances (w : W) (hp : Library.heap) :
  Library.reachable h w hp ->
  Z.of_nat (length (Library.objects hp)) < 2 ^ 31 ->
  forall b,
    let this := Library.mk (Library.static_refs hp) b in
    Library.reference_count this = Library.count_refer (Library.objects hp)
    /\ (Library.is_open this = true
        <-> exists i, Library.objects hp !! i = Some (Some true)).
Proof.
  intros Hr Len b. cbv zeta.
  unfold Library.reference_count, Library.is_open. cbn [Library.refs_].
  rewrite (reachable_counter h w hp Hr Len). split; [reflexivity|].
  rewrite Z.ltb_lt. split.
  - apply count_refer_positive.
  - intros [i Hi]. pose proof (count_refer_lookup _ _ Hi). lia.
Qed.





(** X24.  The destructor of [Library] never throws and never queries
    [GXGetLastError]; on an instance that does not refer, the destructor and
    [close()] invoke nothing and leave the counter as it is. *)
Theorem library_destructor_never_throws (r : Z) (b : bool) (w : W) :
  let res := run h (Library.dtor (Library.mk r b)) w in
  fst (result_of res) = Normal tt
  /\ existsb is_last_error_query (trace_of res) = false
  /\ (b = false ->
      res = ([], (Normal tt, Library.mk r false), w)
      /\ run h (Library.close (Library.mk r false)) w
         = ([], (Normal tt, Library.mk r false), w)).
Proof.
  cbv zeta. autounfold with wrapper.
  destruct b; exec h; repeat split; intros; congruence.
Qed.

End LibraryMoreFacts.

(** The state after [Library lib{true}] on the scripted library. *)
Lemma one_library_reachable :
  Library.reachable (H := sample_header) sim_vendor sim_ok
    (Library.mkheap 1 [Some true]).
Proof.
  apply (Library.reachable_step (H := sample_header) sim_vendor sim_ok sim_ok
           Library.heap0 (Library.mkheap 1 [Some true])
           (Library.Construct true)
           (trace_of (run sim_vendor
                        (Library.step (H := sample_header)
                           (Library.Construct true) Library.heap0) sim_ok))
           (Normal (Some tt))).
  - apply (Library.reachable_init (H := sample_header)).
  - reflexivity.
Defined.

(** [reference_count_counts_instances] after [Library lib{true}]. *)
Lemma reference_count_counts_instances_witness :
  Library.reference_count (Library.mk 1 true) = 1
  /\ (Library.is_open (Library.mk 1 true) = true
      <-> exists i, [Some true] !! i = Some (Some true)).
Proof.
  exact (reference_count_counts_instances (H := sample_header) sim_vendor
           sim_ok (Library.mkheap 1 [Some true]) one_library_reachable
           eq_refl true).
Defined.


